(** * The IPython session broker of mcp-ipython ([server.py])

    A shallow embedding of [server.py]: the history sink
    ([HistoryManager]), the kernel life cycle ([start_ipython_kernel],
    [shutdown_ipython_kernel]), the execute operation ([send_command]) with
    its notification (IOPub) polling loop and its single shell-reply poll,
    and the reset operation ([clear_kernel]).

    The Jupyter kernel, its two message queues, the monotonic clock and the
    file system are the environment: every value the code reads from them is
    an explicit input of the model, every global the code mutates is threaded
    through as state.  The log notifications sent to the client through
    [ctx.info] and [ctx.error] and the console prints touch neither the
    returned text nor the globals and are left out; [kc.execute],
    [kc.stop_channels] and [km.shutdown_kernel] are taken to return.  Two
    calls the code makes do not exist in the libraries it imports and
    raise [AttributeError]: [ctx.warn] (fastmcp's [Context] has [debug],
    [info], [warning] and [error]) and [km.wait] (jupyter_client's
    [KernelManager] has no [wait]). *)

From Stdlib Require Import String Ascii List Bool Arith ZArith QArith Lia.
From Stdlib Require Import DecimalString.
Import ListNotations.

Local Close Scope Q_scope.
Local Open Scope list_scope.
Local Open Scope string_scope.
Local Open Scope nat_scope.

(** ** Python strings

    A Python [str] is modelled by a Rocq [string] whose characters are the
    code points 0..255.  The helpers below follow CPython on that range;
    [Py.upper_char] leaves the three code points whose upper case lies
    outside it (181, 223, 255) unchanged. *)

Module Py.

Definition nl : string := String "010"%char EmptyString.

(** [str.isspace] on one code point. *)
Definition isspace (c : ascii) : bool :=
  let n := nat_of_ascii c in
  ((9 <=? n) && (n <=? 13)) || ((28 <=? n) && (n <=? 32))
  || (n =? 133) || (n =? 160).

Fixpoint lstrip (s : string) : string :=
  match s with
  | EmptyString => EmptyString
  | String c s' => if isspace c then lstrip s' else s
  end.

Fixpoint rstrip (s : string) : string :=
  match s with
  | EmptyString => EmptyString
  | String c s' =>
      match rstrip s' with
      | EmptyString => if isspace c then EmptyString else String c EmptyString
      | r => String c r
      end
  end.

(** [s.strip()] *)
Definition strip (s : string) : string := rstrip (lstrip s).

(** Truth value of a [str]: non-empty. *)
Definition truthy (s : string) : bool :=
  match s with EmptyString => false | String _ _ => true end.

Definition lower_char (c : ascii) : ascii :=
  let n := nat_of_ascii c in
  if ((65 <=? n) && (n <=? 90))
     || ((192 <=? n) && (n <=? 222) && negb (n =? 215))
  then ascii_of_nat (n + 32) else c.

Definition upper_char (c : ascii) : ascii :=
  let n := nat_of_ascii c in
  if ((97 <=? n) && (n <=? 122))
     || ((224 <=? n) && (n <=? 254) && negb (n =? 247))
  then ascii_of_nat (n - 32) else c.

(** [s.lower()] *)
Fixpoint lower (s : string) : string :=
  match s with
  | EmptyString => EmptyString
  | String c s' => String (lower_char c) (lower s')
  end.

(** [s.capitalize()] *)
Definition capitalize (s : string) : string :=
  match s with
  | EmptyString => EmptyString
  | String c s' => String (upper_char c) (lower s')
  end.

(** [s.startswith(p)] *)
Definition startswith (s p : string) : bool := String.prefix p s.

(** [p in s] *)
Fixpoint contains (p s : string) : bool :=
  String.prefix p s
  || match s with
     | EmptyString => false
     | String _ s' => contains p s'
     end.

(** ["\n".join(lines)] *)
Definition join_lines (lines : list string) : string :=
  String.concat nl lines.

(** [filter(None, lines)] on a list of [str]. *)
Definition filter_none (lines : list string) : list string :=
  filter truthy lines.

(** [str(n)] for an [int]. *)
Definition str_of_int (n : Z) : string :=
  NilZero.string_of_int (Z.to_int n).

(** [repr] of a [str]: the quote is ['] unless the text holds a ['] and no
    double quote; the quote, the backslash and the unprintable code points
    are escaped. *)
Definition dquote : ascii := ascii_of_nat 34.
Definition squote : ascii := ascii_of_nat 39.
Definition backslash : ascii := ascii_of_nat 92.

Fixpoint has_char (c : ascii) (s : string) : bool :=
  match s with
  | EmptyString => false
  | String d s' => Ascii.eqb c d || has_char c s'
  end.

Definition hex_digit (n : nat) : ascii :=
  if n <? 10 then ascii_of_nat (48 + n) else ascii_of_nat (87 + n).

Definition printable (n : nat) : bool :=
  ((32 <=? n) && (n <=? 126)) || ((161 <=? n) && negb (n =? 173)).

Definition repr_char (quote c : ascii) : string :=
  let n := nat_of_ascii c in
  if Ascii.eqb c quote || Ascii.eqb c backslash
  then String backslash (String c EmptyString)
  else if n =? 9 then String backslash "t"
  else if n =? 10 then String backslash "n"
  else if n =? 13 then String backslash "r"
  else if printable n then String c EmptyString
  else String backslash
         (String "x" (String (hex_digit (n / 16))
                        (String (hex_digit (n mod 16)) EmptyString))).

Fixpoint repr_body (quote : ascii) (s : string) : string :=
  match s with
  | EmptyString => EmptyString
  | String c s' => repr_char quote c ++ repr_body quote s'
  end.

Definition repr_str (s : string) : string :=
  let quote :=
    if has_char squote s && negb (has_char dquote s) then dquote else squote in
  String quote (repr_body quote s ++ String quote EmptyString).

(** [repr] of a [list] of [str], as an f-string renders it. *)
Definition repr_list (l : list string) : string :=
  "[" ++ String.concat ", " (map repr_str l) ++ "]".

End Py.

(** ** Exceptions

    A Python call either returns or raises; [Raise e] carries [str(e)],
    which is all the code ever reads from an exception. *)

Inductive result (A : Type) : Type :=
| Ok (a : A)
| Raise (e : string).
Arguments Ok {A} a.
Arguments Raise {A} e.

Definition bind {A B : Type} (r : result A) (k : A -> result B) : result B :=
  match r with
  | Ok a => k a
  | Raise e => Raise e
  end.

Notation "x <- r ;; k" := (bind r (fun x => k))
  (at level 61, r at next level, right associativity).

(** How a call of a tool ends: it returns a text, it raises, or (as far
    as the listed passes of its notification loop go) it is still
    polling. *)
Inductive outcome : Type :=
| Returned (text : string)
| Raised (e : string)
| Polling.

(** [d[key]] on a dict field that may be absent: [KeyError(key)], whose
    [str] is the [repr] of the key. *)
Definition subscript {A : Type} (field : option A) (key : string) : result A :=
  match field with
  | Some v => Ok v
  | None => Raise (Py.repr_str key)
  end.

(** [d.get(key, default)] *)
Definition get {A : Type} (field : option A) (default : A) : A :=
  match field with
  | Some v => v
  | None => default
  end.

(** ** The history sink ([HistoryManager]) *)

(** The history file [ipython_auto_history.py]: its text, and whether
    [open] succeeds on it.  A file that does not exist yet has the empty
    text (both open modes used create it). *)
Record file : Type := {
  contents : string;
  openable : bool
}.

Definition write (f : file) (s : string) : file :=
  {| contents := contents f ++ s; openable := openable f |}.

Module HistoryManager.

Definition header : string := "# Automatic IPython Command History" ++ Py.nl.

(** [_ensure_history_file]: opened in mode [a+], the position is 0 exactly
    when the file is empty.  A failing [open] is caught and reported on
    the console only. *)
Definition ensure_history_file (f : file) : file :=
  if openable f then
    if negb (Py.truthy (contents f)) then write f header else f
  else f.

(** [save_command] *)
Definition save_command (command : string) (f : file) : file :=
  if openable f then
    if negb (Py.startswith command "get_ipython" || Py.startswith command "%")
       && Py.truthy (Py.strip command)
    then write f (command ++ Py.nl)
    else f
  else f.

End HistoryManager.

(** ** The kernel globals and the kernel life cycle *)

(** The kernel manager, with whether its kernel process is alive (what
    [km.is_alive()] answers), and the kernel client, with whether its
    channels are running.  The process is part of the environment: a
    launch starts it, [shutdown_kernel(now=True)] kills it, and the code
    a call submits may kill it. *)
Record kernel_manager : Type := { is_alive : bool }.
Record kernel_client : Type := { channels_running : bool }.

(** The module globals [km] and [kc], the [_history_manager] attribute of
    [send_command] (present or not) and the history file. *)
Record server : Type := {
  km : option kernel_manager;
  kc : option kernel_client;
  history_manager : bool;
  history : file
}.

Definition set_kernel (s : server) (m : option kernel_manager)
    (c : option kernel_client) : server :=
  {| km := m; kc := c;
     history_manager := history_manager s; history := history s |}.

(** What a kernel launch does, statement by statement:
    [KernelManager()] raises; [km.start_kernel()] raises; [km.client()]
    raises; [kc.start_channels()] raises, leaving the channels running or
    not; [kc.wait_for_ready(timeout=30)] raises [RuntimeError], the kernel
    process being alive or not by then; it raises another exception; or
    the kernel gets ready. *)
Inductive launch : Type :=
| ManagerRaises (e : string)
| LaunchRaises (e : string)
| ClientRaises (e : string)
| ChannelsRaise (e : string) (running : bool)
| NeverReady (alive : bool)
| WaitRaises (e : string)
| Ready.

Definition km_alive (s : server) : bool :=
  match km s with
  | Some m => is_alive m
  | None => false
  end.

(** [shutdown_ipython_kernel]: the client is dropped first.  With a live
    kernel, [km.shutdown_kernel(now=True)] kills it and [km.wait(timeout=5)]
    raises [AttributeError], which [except TimeoutError] does not catch:
    [km = None] is not reached. *)
Definition shutdown_ipython_kernel (s : server) : result unit * server :=
  if km_alive s then
    (Raise "'KernelManager' object has no attribute 'wait'",
     set_kernel s (Some {| is_alive := false |}) None)
  else (Ok tt, set_kernel s None None).

(** [start_ipython_kernel]; an exception raised by the shutdown inside
    the [except RuntimeError] block replaces the one the block would
    raise. *)
Definition start_ipython_kernel (l : launch) (s : server)
    : result unit * server :=
  if km_alive s then (Ok tt, s)
  else
    match l with
    | ManagerRaises e => (Raise e, s)
    | LaunchRaises e =>
        (Raise e, set_kernel s (Some {| is_alive := false |}) (kc s))
    | ClientRaises e =>
        (Raise e, set_kernel s (Some {| is_alive := true |}) (kc s))
    | ChannelsRaise e running =>
        (Raise e,
         set_kernel s (Some {| is_alive := true |})
           (Some {| channels_running := running |}))
    | NeverReady alive =>
        match
          shutdown_ipython_kernel
            (set_kernel s (Some {| is_alive := alive |})
               (Some {| channels_running := true |}))
        with
        | (Ok _, s') =>
            (Raise "Failed to connect to IPython kernel in time.", s')
        | (Raise e, s') => (Raise e, s')
        end
    | WaitRaises e =>
        (Raise e,
         set_kernel s (Some {| is_alive := true |})
           (Some {| channels_running := true |}))
    | Ready =>
        (Ok tt,
         set_kernel s (Some {| is_alive := true |})
           (Some {| channels_running := true |}))
    end.

(** ** Messages of the two streams *)

(** The [content] dict of a message; a field is [None] when the key is
    absent.  [data] is the MIME bundle, in insertion order. *)
Record content : Type := {
  execution_state : option string;
  name : option string;
  text : option string;
  data : option (list (string * string));
  ename : option string;
  evalue : option string;
  traceback : option (list string);
  status : option string;
  execution_count : option Z
}.

(** A message: [parent_header.get('msg_id')], [header['msg_type']] and
    [content]. *)
Record message : Type := {
  parent_msg_id : option string;
  msg_type : string;
  msg_content : content
}.

(** One receive on a queue with a timeout: a message, [queue.Empty], or
    another exception. *)
Inductive poll : Type :=
| Got (m : message)
| Empty
| Fault (e : string).

(** [bundle.get(key, default)] on a MIME bundle. *)
Fixpoint bundle_get (bundle : list (string * string)) (key default : string)
    : string :=
  match bundle with
  | [] => default
  | (k, v) :: rest => if String.eqb k key then v else bundle_get rest key default
  end.

(** [parent_header.get('msg_id') == msg_id] *)
Definition is_for (m : message) (msg_id : string) : bool :=
  match parent_msg_id m with
  | Some p => String.eqb p msg_id
  | None => false
  end.

(** ** The execute operation ([send_command]) *)

(** The locals of the notification loop: the transcript [outputs], the
    flag [kernel_reported_idle_for_request], and the number of
    [asyncio.sleep(0.1)] pauses taken so far. *)
Record loop_state : Type := {
  outputs : list string;
  kernel_reported_idle_for_request : bool;
  sleeps : nat
}.

(** [outputs.append(line)] and [outputs.extend(lines)] *)
Definition extend (st : loop_state) (lines : list string) : loop_state :=
  {| outputs := (outputs st ++ lines)%list;
     kernel_reported_idle_for_request := kernel_reported_idle_for_request st;
     sleeps := sleeps st |}.

Definition report_idle (st : loop_state) : loop_state :=
  {| outputs := outputs st;
     kernel_reported_idle_for_request := true;
     sleeps := sleeps st |}.

Definition sleep (st : loop_state) : loop_state :=
  {| outputs := outputs st;
     kernel_reported_idle_for_request := kernel_reported_idle_for_request st;
     sleeps := S (sleeps st) |}.

Definition indent (line : string) : string := "    " ++ line.

(** The branch taken for a notification whose parent id is the request's:
    interpretation by [msg_type].  Every [KeyError] is raised before the
    branch appends anything. *)
Definition interpret (m : message) (st : loop_state) : result loop_state :=
  let c := msg_content m in
  if String.eqb (msg_type m) "status" then
    exec_state <- subscript (execution_state c) "execution_state" ;;
    let st' := extend st ["  Kernel Status: " ++ exec_state] in
    Ok (if String.eqb exec_state "idle" then report_idle st' else st')
  else if String.eqb (msg_type m) "stream" then
    n <- subscript (name c) "name" ;;
    t <- subscript (text c) "text" ;;
    Ok (extend st ["  " ++ Py.capitalize n ++ ": " ++ Py.strip t])
  else if String.eqb (msg_type m) "execute_result" then
    let d := get (data c) [] in
    let text_plain := bundle_get d "text/plain" "" in
    if Py.truthy text_plain then
      Ok (extend st ["  Result: " ++ Py.strip text_plain])
    else
      Ok (extend st
            ["  Execute_Result (no text/plain, available data keys: "
             ++ match d with
                | [] => "data field missing or empty"
                | _ :: _ => Py.repr_list (map fst d)
                end
             ++ ")"])
  else if String.eqb (msg_type m) "display_data" then
    d <- subscript (data c) "data" ;;
    Ok (extend st
          ["  Display Data: "
           ++ Py.strip (bundle_get d "text/plain" "No plain text data")])
  else if String.eqb (msg_type m) "error" then
    let st' :=
      extend st
        ["  IOPub Error: " ++ get (ename c) "N/A" ++ " - "
         ++ get (evalue c) "N/A"] in
    match get (traceback c) [] with
    | [] => Ok st'
    | tb => Ok (extend (extend st' ["  IOPub Traceback:"]) (map indent tb))
    end
  else Ok st.

(** Times are readings of [time.monotonic()], in seconds, taken as
    rationals. *)
Definition iopub_timeout_duration : Q := 10%Q.

(** [now - iopub_start_time > iopub_timeout_duration] *)
Definition timed_out (iopub_start_time now : Q) : bool :=
  negb (Qle_bool (now - iopub_start_time)%Q iopub_timeout_duration).

Definition timeout_marker : string :=
  "  (Overall timeout waiting for all IOPub messages or kernel to go idle for this request)".

(** How one pass through the body of [while True] ends. *)
Inductive control : Type :=
| Break (st : loop_state)
| Continue (st : loop_state).

(** One pass: the clock is read first; the queue is polled only when the
    overall timeout has not elapsed.  [now] is the clock reading of this
    pass and [p] what [get_iopub_msg(timeout=0.5)] gives in it. *)
Definition loop_body (msg_id : string) (iopub_start_time : Q)
    (pass : Q * poll) (st : loop_state) : control :=
  let (now, p) := pass in
  if timed_out iopub_start_time now then Break (extend st [timeout_marker])
  else
    match p with
    | Got m =>
        if is_for m msg_id then
          match interpret m st with
          | Ok st' => Continue st'
          | Raise e =>
              Break (extend st ["Exception while processing IOPub message: " ++ e])
          end
        else Continue st
    | Empty =>
        if kernel_reported_idle_for_request st then Break st
        else Continue (sleep st)
    | Fault e =>
        Break (extend st ["Exception while processing IOPub message: " ++ e])
    end.

(** The loop over the passes the environment provides.  [Break st]: the
    loop has ended with locals [st]; [Continue st]: it is still running,
    with locals [st], when the listed passes are used up. *)
Fixpoint iopub_loop (msg_id : string) (iopub_start_time : Q)
    (passes : list (Q * poll)) (st : loop_state) : control :=
  match passes with
  | [] => Continue st
  | pass :: rest =>
      match loop_body msg_id iopub_start_time pass st with
      | Break st' => Break st'
      | Continue st' => iopub_loop msg_id iopub_start_time rest st'
      end
  end.

(** [str] of [parent_header.get('msg_id')] inside an f-string. *)
Definition str_of_parent (p : option string) : string := get p "None".

(** The single poll of the reply stream, [get_shell_msg(timeout=10)], and
    what it does to [outputs]. *)
Definition shell_reply (msg_id : string) (outputs : list string) (p : poll)
    : list string :=
  match p with
  | Got reply =>
      if is_for reply msg_id then
        let c := msg_content reply in
        match subscript (status c) "status" with
        | Ok shell_reply_status =>
            let outputs := ("Status: " ++ shell_reply_status) :: outputs in
            if String.eqb shell_reply_status "error" then
              let outputs :=
                app outputs
                  ["  Shell Error Name: " ++ get (ename c) "N/A";
                   "  Shell Error Value: " ++ get (evalue c) "N/A"] in
              match get (traceback c) [] with
              | [] => outputs
              | tb => app outputs ("  Shell Traceback:" :: map indent tb)
              end
            else if String.eqb shell_reply_status "ok" then
              app outputs
                ["  Execution Count: "
                 ++ match execution_count c with
                    | Some n => Py.str_of_int n
                    | None => "N/A"
                    end]
            else outputs
        | Raise e =>
            app ("Status: error_shell_reply_exception" :: outputs)
              ["Exception while getting shell reply: " ++ e]
        end
      else
        app ("Status: error_shell_reply_mismatch" :: outputs)
          ["Shell reply (msg_id " ++ str_of_parent (parent_msg_id reply)
           ++ ") was not for the current command (msg_id " ++ msg_id
           ++ ")."]
  | Empty =>
      app ("Status: error_shell_reply_timeout" :: outputs)
        ["Timeout waiting for shell reply from IPython kernel."]
  | Fault e =>
      app ("Status: error_shell_reply_exception" :: outputs)
        ["Exception while getting shell reply: " ++ e]
  end.

(** What the environment does during one call: the outcome of a kernel
    launch, should one be attempted; the id [kc.execute] returns; the clock
    reading taken right after it; the passes of the notification loop; the
    reply poll; and whether the kernel process is still alive when the
    call has submitted its command and is done with it. *)
Record world : Type := {
  launched : launch;
  msg_id : string;
  iopub_start_time : Q;
  iopub : list (Q * poll);
  shell : poll;
  survives : bool
}.

Definition initial : loop_state :=
  {| outputs := []; kernel_reported_idle_for_request := false; sleeps := 0 |}.

Definition has {A : Type} (o : option A) : bool :=
  match o with Some _ => true | None => false end.

(** The kernel check at the top of [send_command]. *)
Definition kernel_down (s : server) : bool :=
  negb (has (kc s)) || negb (has (km s)) || negb (km_alive s).

(** The history manager is created on the first call that gets this far;
    then the command is saved. *)
Definition record_history (command : string) (s : server) : server :=
  let h := if history_manager s then history s
           else HistoryManager.ensure_history_file (history s) in
  {| km := km s; kc := kc s; history_manager := true;
     history := HistoryManager.save_command command h |}.

Definition kc_channels_running (s : server) : bool :=
  match kc s with
  | Some c => channels_running c
  | None => false
  end.

(** The kernel process after a call that submitted. *)
Definition after_execution (w : world) (s : server) : server :=
  set_kernel s (Some {| is_alive := survives w |}) (kc s).

(** [send_command]: how the call ends, and the server state after it.
    With the kernel up but the client channels not running, the call
    raises at [await ctx.warn(...)], before [kc.start_channels()]; the
    command has been saved to the history by then. *)
Definition send_command (command : string) (w : world) (s : server)
    : outcome * server :=
  if kernel_down s then
    match start_ipython_kernel (launched w) s with
    | (Ok _, s') =>
        (Returned "Error: IPython kernel was not running. It has been restarted. Please try your command again.", s')
    | (Raise e, s') =>
        (Returned ("Error: IPython kernel not available and failed to restart: " ++ e), s')
    end
  else
    let s := record_history command s in
    if negb (kc_channels_running s) then
      (Raised "'Context' object has no attribute 'warn'", s)
    else
      match iopub_loop (msg_id w) (iopub_start_time w) (iopub w) initial with
      | Continue _ => (Polling, after_execution w s)
      | Break st =>
          (Returned (Py.join_lines
                       (Py.filter_none
                          (shell_reply (msg_id w) (outputs st) (shell w)))),
           after_execution w s)
      end.

(** ** The reset operation ([clear_kernel]) *)

Definition clear_kernel (w : world) (s : server) : outcome * server :=
  match send_command "%reset -f" w s with
  | (Polling, s') => (Polling, s')
  | (Raised e, s') => (Raised e, s')
  | (Returned reset_command_output, s') =>
      if Py.contains "Status: ok" reset_command_output
         && negb (Py.contains "error" (Py.lower reset_command_output))
      then
        (Returned ("IPython kernel environment cleared successfully." ++ Py.nl
                   ++ "Details:" ++ Py.nl ++ reset_command_output), s')
      else
        (Returned ("IPython kernel clear command finished with potential issues."
                   ++ Py.nl ++ "Details:" ++ Py.nl ++ reset_command_output), s')
  end.

(** ** Concurrent calls

    [send_command] is a coroutine and takes no lock.  The event loop may
    switch to another task wherever a task awaits, so a call is followed
    through the places where it can be suspended: before its first line;
    in [await asyncio.to_thread(kc.execute, command)]; inside the
    notification loop, holding its [msg_id]; in
    [await asyncio.to_thread(kc.get_shell_msg, timeout=10)]; returned. *)

Module Tasks.

Local Open Scope list_scope.

Inductive pc : Type :=
| Entry
| Executing
| PollingIOPub
| AwaitingShell
| Returned.

(** One resumption of a call, up to its next suspension: from the top
    through the kernel check and the history sink to the submission; from
    the return of [kc.execute] into the loop, suspended in
    [get_iopub_msg]; one more pass of the loop; out of the loop to the
    reply poll; from the reply to [return]. *)
Inductive resume : pc -> pc -> Prop :=
| resume_entry : resume Entry Executing
| resume_submitted : resume Executing PollingIOPub
| resume_pass : resume PollingIOPub PollingIOPub
| resume_loop_exit : resume PollingIOPub AwaitingShell
| resume_reply : resume AwaitingShell Returned.

(** The calls the server is handling, one program point each. *)
Definition calls : Type := list pc.

(** The event loop resumes any one call. *)
Inductive step : calls -> calls -> Prop :=
| step_resume (before after : calls) (p p' : pc) :
    resume p p' -> step (before ++ p :: after) (before ++ p' :: after).

Inductive steps : calls -> calls -> Prop :=
| steps_refl (c : calls) : steps c c
| steps_step (c c' c'' : calls) : steps c c' -> step c' c'' -> steps c c''.

(** A submission is in flight from the return of [kc.execute] until the
    call has dealt with the reply poll. *)
Definition in_flight (p : pc) : bool :=
  match p with
  | PollingIOPub | AwaitingShell => true
  | _ => false
  end.

Definition submissions_in_flight (c : calls) : nat :=
  List.length (filter in_flight c).

(** A call is active between its first resumption and its return. *)
Definition active (p : pc) : bool :=
  match p with
  | Entry | Returned => false
  | _ => true
  end.

Definition active_calls (c : calls) : nat := List.length (filter active c).

(** The event loop under callers that do not overlap: a call is entered
    only while no other call is active. *)
Inductive step_in_turn : calls -> calls -> Prop :=
| turn_enter (before after : calls) :
    active_calls (before ++ after) = 0 ->
    step_in_turn (before ++ Entry :: after) (before ++ Executing :: after)
| turn_resume (before after : calls) (p p' : pc) :
    active p = true -> resume p p' ->
    step_in_turn (before ++ p :: after) (before ++ p' :: after).

Inductive steps_in_turn : calls -> calls -> Prop :=
| turns_refl (c : calls) : steps_in_turn c c
| turns_step (c c' c'' : calls) :
    steps_in_turn c c' -> step_in_turn c' c'' -> steps_in_turn c c''.

End Tasks.

(** ** Vocabulary of the specification *)



(** [p] occurs in [s]. *)
Definition occurs (p s : string) : Prop :=
  exists before after, s = before ++ p ++ after.

(** [p], a lower-case text, occurs in [s] in some letter case. *)
Definition occurs_in_any_case (p s : string) : Prop :=
  exists before x after, s = before ++ x ++ after /\ Py.lower x = p.

(** The text up to the first line feed. *)
Fixpoint first_line (s : string) : string :=
  match s with
  | EmptyString => EmptyString
  | String c s' =>
      if Ascii.eqb c "010"%char then EmptyString else String c (first_line s')
  end.



(** The lines one pass appends to an empty transcript. *)
Definition pass_lines (msg_id : string) (iopub_start_time : Q)
    (pass : Q * poll) : list string :=
  match loop_body msg_id iopub_start_time pass initial with
  | Break st | Continue st => outputs st
  end.

(** The status line and the detail lines of the reply poll: what it puts
    around an empty transcript. *)
Definition status_line (msg_id : string) (p : poll) : string :=
  hd EmptyString (shell_reply msg_id [] p).

Definition reply_lines (msg_id : string) (p : poll) : list string :=
  tl (shell_reply msg_id [] p).

(** A notification polled for another request. *)
Definition foreign (msg_id : string) (pass : Q * poll) : bool :=
  match snd pass with
  | Got m => negb (is_for m msg_id)
  | _ => false
  end.

(** The overall timeout has elapsed at one of the passes. *)
Definition deadline_reached (iopub_start_time : Q) (passes : list (Q * poll))
    : bool :=
  existsb (fun pass => timed_out iopub_start_time (fst pass)) passes.

(** The call gets as far as submitting the command: the kernel check
    passes and the client channels are running. *)
Definition submits (w : world) (s : server) : bool :=
  negb (kernel_down s) && kc_channels_running s.

(** The locals a run of the loop ends or stops with. *)
Definition locals (c : control) : loop_state :=
  match c with
  | Break st | Continue st => st
  end.

(** Every foreign notification was polled, that is, met in a pass whose
    clock reading was within the overall timeout. *)
Definition foreign_polled (msg_id : string) (iopub_start_time : Q)
    (passes : list (Q * poll)) : bool :=
  forallb
    (fun pass =>
       implb (foreign msg_id pass) (negb (timed_out iopub_start_time (fst pass))))
    passes.

(** The same environment with other passes of the notification loop. *)
Definition with_iopub (w : world) (passes : list (Q * poll)) : world :=
  {| launched := launched w; msg_id := msg_id w;
     iopub_start_time := iopub_start_time w;
     iopub := passes; shell := shell w; survives := survives w |}.

Definition without_foreign (msg_id : string) (passes : list (Q * poll))
    : list (Q * poll) :=
  filter (fun pass => negb (foreign msg_id pass)) passes.

(** ** Sample messages, servers and environments *)

Module Sample.

Definition no_content : content :=
  {| execution_state := None; name := None; text := None; data := None;
     ename := None; evalue := None; traceback := None; status := None;
     execution_count := None |}.

Definition status_msg (parent state : string) : message :=
  {| parent_msg_id := Some parent; msg_type := "status";
     msg_content :=
       {| execution_state := Some state; name := None; text := None;
          data := None; ename := None; evalue := None; traceback := None;
          status := None; execution_count := None |} |}.

Definition stream_msg (parent channel printed : string) : message :=
  {| parent_msg_id := Some parent; msg_type := "stream";
     msg_content :=
       {| execution_state := None; name := Some channel;
          text := Some printed; data := None; ename := None; evalue := None;
          traceback := None; status := None; execution_count := None |} |}.

Definition reply_msg (parent outcome : string) (count : Z) : message :=
  {| parent_msg_id := Some parent; msg_type := "execute_reply";
     msg_content :=
       {| execution_state := None; name := None; text := None; data := None;
          ename := None; evalue := None; traceback := None;
          status := Some outcome; execution_count := Some count |} |}.

Definition empty_history : file := {| contents := ""; openable := true |}.

(** A server whose kernel runs, and one whose kernel has died. *)
Definition up : server :=
  {| km := Some {| is_alive := true |};
     kc := Some {| channels_running := true |};
     history_manager := false; history := empty_history |}.

Definition down : server :=
  {| km := Some {| is_alive := false |};
     kc := Some {| channels_running := true |};
     history_manager := false; history := empty_history |}.

(** A request [m1] submitted at time 100: busy, a stale line of request
    [m0], one printed line, idle, then an empty poll. *)
Definition passes : list (Q * poll) :=
  [ (100.1%Q, Got (status_msg "m1" "busy"));
    (100.2%Q, Got (stream_msg "m0" "stdout" "stale"));
    (100.3%Q, Got (stream_msg "m1" "stdout" ("hi" ++ Py.nl)));
    (100.4%Q, Got (status_msg "m1" "idle"));
    (100.9%Q, Empty) ].

Definition run (reply : poll) : world :=
  {| launched := Ready; msg_id := "m1";
     iopub_start_time := 100%Q; iopub := passes; shell := reply;
     survives := true |}.

(** The kernel never goes idle; the clock passes the overall timeout. *)
Definition slow : world :=
  {| launched := Ready; msg_id := "m1";
     iopub_start_time := 100%Q;
     iopub := [ (100.1%Q, Got (status_msg "m1" "busy"));
                (100.6%Q, Empty);
                (110.2%Q, Empty);
                (110.8%Q, Got (status_msg "m1" "idle")) ];
     shell := Empty; survives := true |}.

(** A reset whose output mentions an error although it succeeded. *)
Definition noisy_reset : world :=
  {| launched := Ready; msg_id := "m1";
     iopub_start_time := 100%Q;
     iopub := [ (100.1%Q, Got (stream_msg "m1" "stderr" "No Error here"));
                (100.2%Q, Got (status_msg "m1" "idle"));
                (100.8%Q, Empty) ];
     shell := Got (reply_msg "m1" "ok" 7); survives := true |}.

End Sample.

(** ** Sessions *)

(** The test [save_command] applies to a command before writing it. *)
Definition recordable (command : string) : bool :=
  negb (Py.startswith command "get_ipython" || Py.startswith command "%")
  && Py.truthy (Py.strip command).

(** What [save_command] writes for a command. *)
Definition history_line (command : string) : string := command ++ Py.nl.

(** The history lines of a run of commands. *)
Definition history_lines (commands : list string) : string :=
  String.concat "" (map history_line (filter recordable commands)).

(** Calls of [send_command] made one after the other, each with its own
    environment; the server state is handed from one to the next. *)
Fixpoint session (calls : list (string * world)) (s : server) : server :=
  match calls with
  | [] => s
  | (command, w) :: rest => session rest (snd (send_command command w s))
  end.

(** A pass whose poll finds the queue empty. *)
Definition polls_empty (pass : Q * poll) : bool :=
  match snd pass with
  | Empty => true
  | _ => false
  end.

(** The two summaries of [clear_kernel], each followed by the details. *)
Definition cleared (output : string) : string :=
  "IPython kernel environment cleared successfully." ++ Py.nl
  ++ "Details:" ++ Py.nl ++ output.

Definition potential_issues (output : string) : string :=
  "IPython kernel clear command finished with potential issues." ++ Py.nl
  ++ "Details:" ++ Py.nl ++ output.

(** The test of [clear_kernel] on a text: [error] occurs in it in some
    letter case. *)
Definition mentions_error (output : string) : bool :=
  Py.contains "error" (Py.lower output).

(** No character of [s] is a character of [p]. *)
Fixpoint avoids (p s : string) : bool :=
  match s with
  | EmptyString => true
  | String c s' => negb (Py.has_char c p) && avoids p s'
  end.

(** The lines that are not empty, in order. *)
Definition keep_nonempty (lines : list string) : list string :=
  filter (fun l => negb (String.eqb l "")) lines.

(** The lines written one after the other with one line feed between
    consecutive lines. *)
Fixpoint line_feed_join (lines : list string) : string :=
  match lines with
  | [] => ""
  | l :: rest =>
      l ++ match rest with
           | [] => ""
           | _ :: _ => String "010"%char (line_feed_join rest)
           end
  end.

(** * Properties *)

(** ** Python strings *)

Example strip_ex : Py.strip (" a b " ++ Py.nl) = "a b".
Proof. reflexivity. Qed.

Example capitalize_ex : Py.capitalize "stdOUT" = "Stdout".
Proof. reflexivity. Qed.

Example repr_list_ex :
  Py.repr_list ["text/html"; "it's"] =
  "['text/html', " ++ String Py.dquote ("it's" ++ String Py.dquote "]").
Proof. reflexivity. Qed.

Example str_of_int_ex :
  (Py.str_of_int 0, Py.str_of_int 42, Py.str_of_int (-7)) = ("0", "42", "-7").
Proof. reflexivity. Qed.

Section Strings.

Lemma append_nil_r (s : string) : s ++ "" = s.
Proof. induction s as [|c s IH]; simpl; congruence. Qed.

Lemma append_assoc (a b c : string) : (a ++ b) ++ c = a ++ b ++ c.
Proof. induction a as [|x a IH]; simpl; congruence. Qed.

Lemma prefix_iff (p s : string) :
  String.prefix p s = true <-> exists rest, s = p ++ rest.
Proof.
  revert s; induction p as [|a p IH]; intros s.
  - destruct s; simpl; split; eauto.
  - destruct s as [|b s]; simpl.
    + split; [discriminate | intros [rest H]; discriminate].
    + destruct (ascii_dec a b) as [->|Hne].
      * rewrite IH. split; intros [rest H]; exists rest; congruence.
      * split; [discriminate | intros [rest H]; congruence].
Qed.

Lemma contains_iff (p s : string) : Py.contains p s = true <-> occurs p s.
Proof.
  unfold occurs; induction s as [|c s IH].
  - cbn [Py.contains]. rewrite orb_false_r, prefix_iff. split.
    + intros [rest H]. exists "", rest. exact H.
    + intros [[|x before] [after H]]; [eauto | discriminate].
  - cbn [Py.contains]. rewrite orb_true_iff, IH, prefix_iff. split.
    + intros [[rest H] | [before [after H]]].
      * exists "", rest. exact H.
      * exists (String c before), after. simpl. congruence.
    + intros [[|x before] [after H]].
      * left. exists after. exact H.
      * right. exists before, after. simpl in H. congruence.
Qed.

Lemma lower_app (a b : string) : Py.lower (a ++ b) = Py.lower a ++ Py.lower b.
Proof. induction a as [|c a IH]; simpl; congruence. Qed.

Lemma lower_split (s u v : string) :
  Py.lower s = u ++ v ->
  exists a b, s = a ++ b /\ Py.lower a = u /\ Py.lower b = v.
Proof.
  revert s; induction u as [|c u IH]; intros s H.
  - exists "", s. auto.
  - destruct s as [|d s]; [discriminate|].
    simpl in H. injection H as Hc Hs.
    destruct (IH s Hs) as (a & b & -> & Ha & Hb).
    exists (String d a), b. simpl. repeat split; congruence.
Qed.

Lemma contains_lower_iff (p s : string) :
  Py.contains p (Py.lower s) = true <-> occurs_in_any_case p s.
Proof.
  rewrite contains_iff. unfold occurs, occurs_in_any_case. split.
  - intros (u & v & H).
    destruct (lower_split _ _ _ H) as (a & r & -> & _ & Hr).
    destruct (lower_split _ _ _ Hr) as (x & b & -> & Hx & _).
    exists a, x, b. auto.
  - intros (a & x & b & -> & <-).
    exists (Py.lower a), (Py.lower b). now rewrite !lower_app.
Qed.





Lemma first_line_app_nl (a rest : string) :
  Py.has_char "010"%char a = false ->
  first_line (a ++ Py.nl ++ rest) = a.
Proof.
  induction a as [|c a IH]; [reflexivity|].
  cbn [Py.has_char first_line append].
  rewrite (Ascii.eqb_sym "010" c).
  destruct (Ascii.eqb c "010") eqn:E; [discriminate|].
  cbn [orb]. intros H. now rewrite IH.
Qed.

Lemma first_line_no_nl (a : string) :
  Py.has_char "010"%char a = false -> first_line a = a.
Proof.
  induction a as [|c a IH]; [reflexivity|].
  cbn [Py.has_char first_line].
  rewrite (Ascii.eqb_sym "010" c).
  destruct (Ascii.eqb c "010") eqn:E; [discriminate|].
  cbn [orb]. intros H. now rewrite IH.
Qed.

Lemma first_line_join (l : string) (ls : list string) :
  Py.has_char "010"%char l = false ->
  first_line (Py.join_lines (l :: ls)) = l.
Proof.
  intros H. unfold Py.join_lines. destruct ls as [|l' ls]; simpl.
  - now apply first_line_no_nl.
  - now apply first_line_app_nl.
Qed.

End Strings.

(** ** The history sink *)

Section History.


Lemma save_command_unopenable (command : string) (f : file) :
  openable f = false -> HistoryManager.save_command command f = f.
Proof. unfold HistoryManager.save_command. now intros ->. Qed.



End History.

(** ** The notification loop *)

Section NotificationLoop.

Variable msg_id : string.
Variable iopub_start_time : Q.

(** Interpreting a message reads nothing of the locals: it raises or not
    whatever they are, and what it appends goes after the lines already
    there. *)
Lemma interpret_frame (m : message) (st : loop_state) :
  match interpret m initial, interpret m st with
  | Ok a, Ok b =>
      outputs b = (outputs st ++ outputs a)%list
      /\ kernel_reported_idle_for_request b
         = kernel_reported_idle_for_request st
           || kernel_reported_idle_for_request a
      /\ sleeps b = sleeps st
  | Raise e, Raise e' => e = e'
  | _, _ => False
  end.
Proof.
  unfold interpret.
  destruct (String.eqb (msg_type m) "status").
  { destruct (execution_state (msg_content m)) as [x|]; cbn; [|reflexivity].
    destruct (String.eqb x "idle"); cbn;
      rewrite ?orb_true_r, ?orb_false_r; auto. }
  destruct (String.eqb (msg_type m) "stream").
  { destruct (name (msg_content m)); cbn; [|reflexivity].
    destruct (text (msg_content m)); cbn; [|reflexivity].
    rewrite orb_false_r; auto. }
  destruct (String.eqb (msg_type m) "execute_result").
  { destruct (Py.truthy _); cbn; rewrite orb_false_r; auto. }
  destruct (String.eqb (msg_type m) "display_data").
  { destruct (data (msg_content m)); cbn; [|reflexivity].
    rewrite orb_false_r; auto. }
  destruct (String.eqb (msg_type m) "error").
  { destruct (get (traceback (msg_content m)) []); cbn;
      rewrite orb_false_r, <- ?app_assoc; auto. }
  cbn. rewrite orb_false_r, app_nil_r. auto.
Qed.

(** One pass appends its own lines after those already in the
    transcript. *)
Lemma loop_body_outputs (pass : Q * poll) (st : loop_state) :
  outputs (locals (loop_body msg_id iopub_start_time pass st))
  = (outputs st ++ pass_lines msg_id iopub_start_time pass)%list.
Proof.
  unfold pass_lines, loop_body. destruct pass as [now p].
  destruct (timed_out iopub_start_time now); [reflexivity|].
  destruct p as [m| |e]; cbn.
  - destruct (is_for m msg_id); cbn; [|now rewrite app_nil_r].
    pose proof (interpret_frame m st) as H.
    destruct (interpret m initial), (interpret m st); cbn; try easy.
    now subst.
  - destruct (kernel_reported_idle_for_request st); cbn; now rewrite app_nil_r.
  - reflexivity.
Qed.

Lemma iopub_loop_app (before after : list (Q * poll)) (st : loop_state) :
  iopub_loop msg_id iopub_start_time (before ++ after)%list st
  = match iopub_loop msg_id iopub_start_time before st with
    | Break st' => Break st'
    | Continue st' => iopub_loop msg_id iopub_start_time after st'
    end.
Proof.
  revert st; induction before as [|pass before IH]; intros st; cbn.
  - reflexivity.
  - destruct (loop_body msg_id iopub_start_time pass st); [reflexivity|].
    apply IH.
Qed.

(** The transcript of the loop is made of the lines of the passes it went
    through, in the order of the passes. *)
Lemma iopub_loop_outputs (passes : list (Q * poll)) (st : loop_state) :
  exists n,
    n <= List.length passes
    /\ outputs (locals (iopub_loop msg_id iopub_start_time passes st))
       = (outputs st
          ++ flat_map (pass_lines msg_id iopub_start_time) (firstn n passes))%list.
Proof.
  revert st; induction passes as [|pass passes IH]; intros st; cbn.
  - exists 0. split; [lia|]. now rewrite app_nil_r.
  - pose proof (loop_body_outputs pass st) as Hb.
    destruct (loop_body msg_id iopub_start_time pass st) as [st'|st'];
      cbn in Hb.
    + exists 1. split; [lia|]. cbn. now rewrite app_nil_r.
    + destruct (IH st') as (n & Hn & Hout).
      exists (S n). split; [lia|].
      cbn. rewrite Hout, Hb. now rewrite app_assoc.
Qed.

Lemma timed_out_iff (now : Q) :
  timed_out iopub_start_time now = true <-> (10 < now - iopub_start_time)%Q.
Proof.
  unfold timed_out, iopub_timeout_duration. rewrite negb_true_iff. split.
  - intros H. apply Qnot_le_lt. intros Hle.
    apply Qle_bool_iff in Hle. congruence.
  - intros H. destruct (Qle_bool (now - iopub_start_time) 10) eqn:Hle;
      [|reflexivity].
    apply Qle_bool_iff in Hle. now apply Qlt_not_le in H.
Qed.

Lemma within_timeout (now : Q) :
  (now - iopub_start_time <= 10)%Q -> timed_out iopub_start_time now = false.
Proof.
  intros Hle. destruct (timed_out iopub_start_time now) eqn:H; [|reflexivity].
  apply timed_out_iff in H. now apply Qlt_not_le in H.
Qed.

(** C4.  In a pass that polls (its clock reading is within the overall
    timeout) and finds the queue empty, the loop ends exactly when the idle
    status of this request has been seen before, with the locals as they
    were; otherwise the pass takes one pause, changes nothing else, and
    the loop goes on with the next pass.  The idle status message itself
    appends its line, sets the flag, takes no pause, and the loop goes
    on. *)
Theorem empty_poll_ends_loop_iff_idle_seen
    (now : Q) (st : loop_state) (rest : list (Q * poll)) (m : message) :
  (now - iopub_start_time <= 10)%Q ->
  ((exists st', loop_body msg_id iopub_start_time (now, Empty) st = Break st')
   <-> kernel_reported_idle_for_request st = true)
  /\ (kernel_reported_idle_for_request st = true ->
      loop_body msg_id iopub_start_time (now, Empty) st = Break st
      /\ iopub_loop msg_id iopub_start_time ((now, Empty) :: rest) st
         = Break st)
  /\ (kernel_reported_idle_for_request st = false ->
      loop_body msg_id iopub_start_time (now, Empty) st
      = Continue {| outputs := outputs st;
                    kernel_reported_idle_for_request := false;
                    sleeps := S (sleeps st) |}
      /\ iopub_loop msg_id iopub_start_time ((now, Empty) :: rest) st
         = iopub_loop msg_id iopub_start_time rest
             {| outputs := outputs st;
                kernel_reported_idle_for_request := false;
                sleeps := S (sleeps st) |})
  /\ (is_for m msg_id = true -> msg_type m = "status" ->
      execution_state (msg_content m) = Some "idle" ->
      loop_body msg_id iopub_start_time (now, Got m) st
      = Continue {| outputs := app (outputs st) ["  Kernel Status: idle"];
                    kernel_reported_idle_for_request := true;
                    sleeps := sleeps st |}).
Proof.
  intros Hnow. apply within_timeout in Hnow. cbn. rewrite Hnow.
  destruct (kernel_reported_idle_for_request st) eqn:Hidle.
  - repeat split; try discriminate; eauto.
    intros Hfor Hty Hst. rewrite Hfor. unfold interpret.
    rewrite Hty, Hst. reflexivity.
  - repeat split; try discriminate.
    + intros [st' H]. discriminate.
    + unfold sleep. now rewrite Hidle.
    + unfold sleep. now rewrite Hidle.
    + intros Hfor Hty Hst. rewrite Hfor. unfold interpret.
      rewrite Hty, Hst. reflexivity.
Qed.

End NotificationLoop.

Lemma empty_poll_ends_loop_iff_idle_seen_witness :
  iopub_loop "m1" 100%Q [(100.9%Q, Empty)]
    {| outputs := ["  Kernel Status: idle"];
       kernel_reported_idle_for_request := true; sleeps := 0 |}
  = Break {| outputs := ["  Kernel Status: idle"];
             kernel_reported_idle_for_request := true; sleeps := 0 |}
  /\ loop_body "m1" 100%Q (100.9%Q, Empty) initial
     = Continue {| outputs := []; kernel_reported_idle_for_request := false;
                   sleeps := 1 |}
  /\ loop_body "m1" 100%Q (100.9%Q, Got (Sample.status_msg "m1" "idle")) initial
     = Continue {| outputs := ["  Kernel Status: idle"];
                   kernel_reported_idle_for_request := true; sleeps := 0 |}.
Proof.
  assert (Hnow : (100.9 - 100 <= 10)%Q) by (unfold Qle; simpl; lia).
  pose proof (empty_poll_ends_loop_iff_idle_seen "m1" 100%Q 100.9%Q
                {| outputs := ["  Kernel Status: idle"];
                   kernel_reported_idle_for_request := true; sleeps := 0 |}
                [] (Sample.status_msg "m1" "idle") Hnow) as Hseen.
  pose proof (empty_poll_ends_loop_iff_idle_seen "m1" 100%Q 100.9%Q
                initial [] (Sample.status_msg "m1" "idle") Hnow) as Hnot.
  split; [|split].
  - apply Hseen. reflexivity.
  - apply Hnot. reflexivity.
  - apply Hnot; reflexivity.
Defined.

Section OverallTimeout.

Variable msg_id : string.
Variable iopub_start_time : Q.

Lemma timed_out_breaks (now : Q) (p : poll) (st : loop_state) :
  timed_out iopub_start_time now = true ->
  loop_body msg_id iopub_start_time (now, p) st
  = Break (extend st [timeout_marker]).
Proof. intros H. cbn. now rewrite H. Qed.

Lemma deadline_ends_loop (passes : list (Q * poll)) (st : loop_state) :
  deadline_reached iopub_start_time passes = true ->
  exists st', iopub_loop msg_id iopub_start_time passes st = Break st'.
Proof.
  unfold deadline_reached.
  revert st; induction passes as [|[now p] passes IH]; intros st; cbn.
  - discriminate.
  - destruct (timed_out iopub_start_time now) eqn:Hnow; cbn.
    + intros _. eauto.
    + intros H.
      destruct p as [m| |e].
      * destruct (is_for m msg_id); [|now apply IH].
        destruct (interpret m st); [now apply IH | eauto].
      * destruct (kernel_reported_idle_for_request st); [eauto | now apply IH].
      * eauto.
Qed.

(** C5.  A pass whose clock reading is more than 10 past the reading
    taken at submission ends the loop, whatever the idle flag and whatever
    the queue holds, and appends the timeout marker line and nothing else;
    so the loop over any passes that contain such a pass ends, either
    before it or at it with the marker as the last line.  A pass whose
    reading is at most 10 past the start polls the queue instead. *)
Theorem overall_timeout_ends_loop
    (before after : list (Q * poll)) (now : Q) (p : poll) (st : loop_state) :
  (10 < now - iopub_start_time)%Q ->
  loop_body msg_id iopub_start_time (now, p) st
  = Break {| outputs :=
               app (outputs st)
                 ["  (Overall timeout waiting for all IOPub messages or kernel to go idle for this request)"];
             kernel_reported_idle_for_request :=
               kernel_reported_idle_for_request st;
             sleeps := sleeps st |}
  /\ (exists st',
         iopub_loop msg_id iopub_start_time (before ++ (now, p) :: after)%list st
         = Break st'
         /\ (iopub_loop msg_id iopub_start_time before st = Break st'
             \/ exists st1,
                  iopub_loop msg_id iopub_start_time before st = Continue st1
                  /\ st'
                     = {| outputs :=
                            app (outputs st1)
                              ["  (Overall timeout waiting for all IOPub messages or kernel to go idle for this request)"];
                          kernel_reported_idle_for_request :=
                            kernel_reported_idle_for_request st1;
                          sleeps := sleeps st1 |}))
  /\ (forall early,
         (early - iopub_start_time <= 10)%Q ->
         loop_body msg_id iopub_start_time (early, Empty) st
         = if kernel_reported_idle_for_request st then Break st
           else Continue {| outputs := outputs st;
                            kernel_reported_idle_for_request := false;
                            sleeps := S (sleeps st) |}).
Proof.
  intros Hnow. apply timed_out_iff in Hnow.
  split; [now rewrite timed_out_breaks|]. split.
  - rewrite iopub_loop_app.
    destruct (iopub_loop msg_id iopub_start_time before st) as [st'|st1].
    + exists st'. auto.
    + eexists. split.
      * cbn [iopub_loop]. now rewrite timed_out_breaks.
      * right. exists st1. auto.
  - intros early Hearly. apply within_timeout in Hearly.
    cbn. rewrite Hearly.
    destruct (kernel_reported_idle_for_request st) eqn:Hidle; [reflexivity|].
    unfold sleep. now rewrite Hidle.
Qed.

Lemma foreign_pass_skipped (now : Q) (m : message) (st : loop_state) :
  timed_out iopub_start_time now = false ->
  is_for m msg_id = false ->
  loop_body msg_id iopub_start_time (now, Got m) st = Continue st.
Proof. intros Hnow Hfor. cbn. now rewrite Hnow, Hfor. Qed.

Lemma foreign_pass_lines (pass : Q * poll) :
  foreign msg_id pass = true ->
  timed_out iopub_start_time (fst pass) = false ->
  pass_lines msg_id iopub_start_time pass = [].
Proof.
  destruct pass as [now [m| |e]]; cbn; try discriminate.
  intros Hfor Hnow. apply negb_true_iff in Hfor.
  unfold pass_lines. now rewrite foreign_pass_skipped.
Qed.

(** The loop runs the same with the foreign notifications taken out of
    the queue. *)
Lemma iopub_loop_without_foreign (passes : list (Q * poll)) (st : loop_state) :
  foreign_polled msg_id iopub_start_time passes = true ->
  iopub_loop msg_id iopub_start_time (without_foreign msg_id passes) st
  = iopub_loop msg_id iopub_start_time passes st.
Proof.
  unfold foreign_polled, without_foreign.
  revert st; induction passes as [|pass passes IH]; intros st; cbn [forallb filter].
  - reflexivity.
  - rewrite andb_true_iff. intros [Hpass Hrest].
    destruct (foreign msg_id pass) eqn:Hfor; cbn [negb].
    + cbn in Hpass. apply negb_true_iff in Hpass.
      destruct pass as [now [m| |e]]; cbn in Hfor; try discriminate.
      apply negb_true_iff in Hfor. cbn [iopub_loop].
      rewrite (foreign_pass_skipped now m st Hpass Hfor). now apply IH.
    + cbn [iopub_loop].
      destruct (loop_body msg_id iopub_start_time pass st); [reflexivity|].
      now apply IH.
Qed.

End OverallTimeout.

Lemma overall_timeout_ends_loop_witness :
  exists st',
    iopub_loop "m1" 100%Q (iopub Sample.slow) initial = Break st'
    /\ outputs st'
       = ["  Kernel Status: busy";
          "  (Overall timeout waiting for all IOPub messages or kernel to go idle for this request)"].
Proof.
  assert (Hnow : (10 < 110.2 - 100)%Q) by reflexivity.
  destruct (overall_timeout_ends_loop "m1" 100%Q
              [ (100.1%Q, Got (Sample.status_msg "m1" "busy"));
                (100.6%Q, Empty) ]
              [ (110.8%Q, Got (Sample.status_msg "m1" "idle")) ]
              110.2%Q Empty initial Hnow)
    as (_ & (st' & Hrun & Hwhere) & _).
  exists st'. split; [exact Hrun|].
  destruct Hwhere as [Hbefore | (st1 & Hbefore & ->)].
  - discriminate Hbefore.
  - injection Hbefore as <-. reflexivity.
Defined.

(** ** The reply poll *)

Section ReplyPoll.

Variable msg_id : string.

(** The reply poll puts one status line before the transcript and its
    detail lines after it. *)
Lemma shell_reply_around (lines : list string) (p : poll) :
  shell_reply msg_id lines p
  = (status_line msg_id p :: lines ++ reply_lines msg_id p)%list.
Proof.
  unfold status_line, reply_lines, shell_reply.
  destruct p as [reply| |e]; try reflexivity.
  destruct (is_for reply msg_id); [|reflexivity].
  destruct (subscript (status (msg_content reply)) "status") as [s|e];
    [|reflexivity].
  destruct (String.eqb s "error").
  - destruct (get (traceback (msg_content reply)) []); cbn;
      now rewrite <- ?app_assoc.
  - destruct (String.eqb s "ok"); cbn; [reflexivity|].
    now rewrite app_nil_r.
Qed.

Lemma status_line_cases (p : poll) :
  status_line msg_id p
  = match p with
    | Got reply =>
        if is_for reply msg_id then
          match status (msg_content reply) with
          | Some s => "Status: " ++ s
          | None => "Status: error_shell_reply_exception"
          end
        else "Status: error_shell_reply_mismatch"
    | Empty => "Status: error_shell_reply_timeout"
    | Fault _ => "Status: error_shell_reply_exception"
    end.
Proof.
  unfold status_line, shell_reply.
  destruct p as [reply| |e]; try reflexivity.
  destruct (is_for reply msg_id); [|reflexivity].
  destruct (status (msg_content reply)) as [s|]; [|reflexivity].
  cbn. destruct (String.eqb s "error").
  - now destruct (get (traceback (msg_content reply)) []).
  - now destruct (String.eqb s "ok").
Qed.

(** C6.  The reply poll has four dispositions.  A reply for this request
    puts [Status: <status>] first and, after the transcript, the error
    name, value and traceback lines when the status is [error], the
    execution count when it is [ok], nothing otherwise.  A reply for
    another request puts [Status: error_shell_reply_mismatch] first and a
    note of the mismatch last.  No reply within the timeout puts
    [Status: error_shell_reply_timeout] first.  Any other fault, a reply
    without a status included, puts [Status: error_shell_reply_exception]
    first and the fault description last. *)
Theorem shell_reply_dispositions (lines : list string) :
  (forall reply s,
      is_for reply msg_id = true ->
      status (msg_content reply) = Some s ->
      shell_reply msg_id lines (Got reply)
      = ("Status: " ++ s)
          :: app lines
               (if String.eqb s "error" then
                  ("  Shell Error Name: "
                   ++ get (ename (msg_content reply)) "N/A")
                    :: ("  Shell Error Value: "
                        ++ get (evalue (msg_content reply)) "N/A")
                    :: match get (traceback (msg_content reply)) [] with
                       | [] => []
                       | tb => "  Shell Traceback:" :: map indent tb
                       end
                else if String.eqb s "ok" then
                  ["  Execution Count: "
                   ++ match execution_count (msg_content reply) with
                      | Some n => Py.str_of_int n
                      | None => "N/A"
                      end]
                else []))
  /\ (forall reply,
         is_for reply msg_id = false ->
         shell_reply msg_id lines (Got reply)
         = "Status: error_shell_reply_mismatch"
             :: app lines
                  ["Shell reply (msg_id " ++ str_of_parent (parent_msg_id reply)
                   ++ ") was not for the current command (msg_id " ++ msg_id
                   ++ ")."])
  /\ shell_reply msg_id lines Empty
     = "Status: error_shell_reply_timeout"
         :: app lines ["Timeout waiting for shell reply from IPython kernel."]
  /\ (forall e,
         shell_reply msg_id lines (Fault e)
         = "Status: error_shell_reply_exception"
             :: app lines ["Exception while getting shell reply: " ++ e])
  /\ (forall reply,
         is_for reply msg_id = true ->
         status (msg_content reply) = None ->
         shell_reply msg_id lines (Got reply)
         = "Status: error_shell_reply_exception"
             :: app lines ["Exception while getting shell reply: 'status'"]).
Proof.
  repeat split.
  - intros reply s Hfor Hs. unfold shell_reply. rewrite Hfor, Hs. cbn.
    destruct (String.eqb s "error").
    + destruct (get (traceback (msg_content reply)) []); cbn;
        now rewrite <- ?app_assoc.
    + destruct (String.eqb s "ok"); cbn; [reflexivity|].
      now rewrite app_nil_r.
  - intros reply Hfor. unfold shell_reply. now rewrite Hfor.
  - intros reply Hfor Hs. unfold shell_reply. now rewrite Hfor, Hs.
Qed.

End ReplyPoll.

Lemma shell_reply_dispositions_witness :
  shell_reply "m1" ["  Stdout: hi"] (Got (Sample.reply_msg "m1" "ok" 3))
  = ["Status: ok"; "  Stdout: hi"; "  Execution Count: 3"]
  /\ shell_reply "m1" ["  Stdout: hi"] (Got (Sample.reply_msg "m0" "ok" 2))
     = ["Status: error_shell_reply_mismatch"; "  Stdout: hi";
        "Shell reply (msg_id m0) was not for the current command (msg_id m1)."].
Proof.
  destruct (shell_reply_dispositions "m1" ["  Stdout: hi"])
    as (Hmatch & Hmismatch & _).
  split.
  - apply (Hmatch (Sample.reply_msg "m1" "ok" 3) "ok"); reflexivity.
  - apply (Hmismatch (Sample.reply_msg "m0" "ok" 2)). reflexivity.
Defined.

(** ** The execute operation *)

Section Execute.

Variable command : string.

Lemma record_history_kernel (s : server) :
  kc_channels_running (record_history command s) = kc_channels_running s.
Proof. reflexivity. Qed.

(** A call that submits returns, once the notification loop has ended,
    the joined lines the reply poll leaves. *)
Lemma send_command_submitted (w : world) (s : server) :
  submits w s = true ->
  fst (send_command command w s)
  = match iopub_loop (msg_id w) (iopub_start_time w) (iopub w) initial with
    | Break st =>
        Returned (Py.join_lines
                    (Py.filter_none
                       (shell_reply (msg_id w) (outputs st) (shell w))))
    | Continue _ => Polling
    end.
Proof.
  unfold submits, send_command. rewrite andb_true_iff, negb_true_iff.
  intros [-> Hrunning]. rewrite record_history_kernel, Hrunning.
  cbn [negb]. now destruct (iopub_loop _ _ _ _).
Qed.

(** A call that finds the kernel down returns one [Error: ...] message. *)
Lemma send_command_kernel_down (w : world) (s : server) :
  kernel_down s = true ->
  exists message,
    fst (send_command command w s) = Returned message
    /\ Py.startswith message "Error: " = true.
Proof.
  unfold send_command. intros ->.
  destruct (start_ipython_kernel (launched w) s) as [[[]|e] s'];
    eexists; split; reflexivity.
Qed.

(** A call that finds the kernel up and the channels not running raises
    at [ctx.warn]. *)
Lemma send_command_channels_down (w : world) (s : server) :
  kernel_down s = false ->
  kc_channels_running s = false ->
  fst (send_command command w s)
  = Raised "'Context' object has no attribute 'warn'".
Proof.
  unfold send_command. intros -> Hch.
  now rewrite record_history_kernel, Hch.
Qed.

Lemma not_submitted_cases (w : world) (s : server) :
  submits w s = false ->
  kernel_down s = true
  \/ (kernel_down s = false /\ kc_channels_running s = false).
Proof.
  unfold submits. destruct (kernel_down s); [auto|].
  cbn [negb andb]. auto.
Qed.

(** A call ends as soon as the clock passes the overall timeout: it
    returns a text, or, with the kernel up and the channels not running,
    it raises; it is not left polling. *)
Theorem send_command_ends (w : world) (s : server) :
  deadline_reached (iopub_start_time w) (iopub w) = true ->
  (negb (kernel_down s) && negb (kc_channels_running s) = false ->
   exists message, fst (send_command command w s) = Returned message)
  /\ (negb (kernel_down s) && negb (kc_channels_running s) = true ->
      fst (send_command command w s)
      = Raised "'Context' object has no attribute 'warn'").
Proof.
  intros Hdeadline. split.
  - intros Hcase. destruct (submits w s) eqn:Hsub.
    + rewrite (send_command_submitted w s Hsub).
      destruct (deadline_ends_loop (msg_id w) (iopub_start_time w) (iopub w)
                  initial Hdeadline) as [st ->].
      eauto.
    + destruct (not_submitted_cases w s Hsub) as [Hdown | [Hup Hch]].
      * destruct (send_command_kernel_down w s Hdown) as (message & H & _).
        eauto.
      * rewrite Hup, Hch in Hcase. discriminate.
  - rewrite andb_true_iff, !negb_true_iff. intros [Hup Hch].
    now apply send_command_channels_down.
Qed.

Lemma status_line_truthy (id : string) (p : poll) :
  Py.truthy (status_line id p) = true.
Proof.
  rewrite status_line_cases. destruct p as [reply| |e]; try reflexivity.
  destruct (is_for reply id); [|reflexivity].
  now destruct (status (msg_content reply)).
Qed.

Lemma status_line_prefix (id : string) (p : poll) :
  exists token, status_line id p = "Status: " ++ token.
Proof.
  rewrite status_line_cases. destruct p as [reply| |e]; try (eexists; reflexivity).
  destruct (is_for reply id); [|eexists; reflexivity].
  destruct (status (msg_content reply)); eexists; reflexivity.
Qed.

Lemma join_lines_cons (l : string) (ls : list string) :
  exists rest, Py.join_lines (l :: ls) = l ++ rest.
Proof.
  unfold Py.join_lines. destruct ls as [|l' ls]; cbn.
  - exists "". now rewrite append_nil_r.
  - eexists. reflexivity.
Qed.

Lemma filter_none_keep_nonempty (lines : list string) :
  Py.filter_none lines = keep_nonempty lines.
Proof.
  unfold Py.filter_none, keep_nonempty.
  induction lines as [|l lines IH]; [reflexivity|].
  cbn [filter]. rewrite IH. now destruct l.
Qed.

Lemma join_lines_line_feed_join (lines : list string) :
  Py.join_lines lines = line_feed_join lines.
Proof.
  unfold Py.join_lines. induction lines as [|l lines IH]; [reflexivity|].
  destruct lines as [|l' lines].
  - cbn. now rewrite append_nil_r.
  - change (String.concat Py.nl (l :: l' :: lines))
      with (l ++ Py.nl ++ String.concat Py.nl (l' :: lines)).
    rewrite IH. reflexivity.
Qed.

(** C7.  The text a submitting call returns is made of the lines that
    are not empty, one line feed between consecutive lines, taken in this
    order: the status line, which begins with [Status: ]; then the lines
    of the notification passes the loop went through, in the order of the
    passes; then the detail lines of the reply. *)
Theorem transcript_order (w : world) (s : server) (st : loop_state) :
  submits w s = true ->
  iopub_loop (msg_id w) (iopub_start_time w) (iopub w) initial = Break st ->
  exists n,
    n <= List.length (iopub w)
    /\ outputs st
       = flat_map (pass_lines (msg_id w) (iopub_start_time w))
           (firstn n (iopub w))
    /\ String.prefix "Status: " (status_line (msg_id w) (shell w)) = true
    /\ fst (send_command command w s)
       = Returned (line_feed_join
                     (keep_nonempty
                        (status_line (msg_id w) (shell w)
                         :: outputs st
                            ++ reply_lines (msg_id w) (shell w))%list)).
Proof.
  intros Hsub Hloop.
  destruct (iopub_loop_outputs (msg_id w) (iopub_start_time w) (iopub w) initial)
    as (n & Hn & Hout).
  rewrite Hloop in Hout. cbn in Hout.
  exists n. split; [exact Hn|]. split; [exact Hout|]. split.
  - destruct (status_line_prefix (msg_id w) (shell w)) as [token ->].
    apply prefix_iff. now exists token.
  - rewrite (send_command_submitted w s Hsub), Hloop, shell_reply_around.
    now rewrite filter_none_keep_nonempty, join_lines_line_feed_join.
Qed.

End Execute.

Lemma transcript_order_witness :
  exists n,
    n <= 5
    /\ fst (send_command "print('hi')"
              (Sample.run (Got (Sample.reply_msg "m1" "ok" 3))) Sample.up)
       = Returned
           ("Status: ok"
            ++ String "010"
                 ("  Kernel Status: busy"
                  ++ String "010"
                       ("  Stdout: hi"
                        ++ String "010"
                             ("  Kernel Status: idle"
                              ++ String "010" "  Execution Count: 3")))).
Proof.
  destruct (transcript_order "print('hi')"
              (Sample.run (Got (Sample.reply_msg "m1" "ok" 3))) Sample.up
              (report_idle
                 (extend initial
                    ["  Kernel Status: busy"; "  Stdout: hi";
                     "  Kernel Status: idle"]))
              eq_refl eq_refl)
    as (n & Hn & _ & _ & Htext).
  exists n. split; [exact Hn | exact Htext].
Defined.

Section StatusLine.

Variable command : string.

Lemma submitted_text (w : world) (s : server) (st : loop_state) :
  submits w s = true ->
  iopub_loop (msg_id w) (iopub_start_time w) (iopub w) initial = Break st ->
  fst (send_command command w s)
  = Returned (Py.join_lines
            (status_line (msg_id w) (shell w)
             :: Py.filter_none
                  (outputs st ++ reply_lines (msg_id w) (shell w))%list)).
Proof.
  intros Hsub Hloop.
  rewrite (send_command_submitted command w s Hsub), Hloop, shell_reply_around.
  unfold Py.filter_none. cbn [filter].
  now rewrite status_line_truthy.
Qed.




(** C9.  A reply for this request whose status is neither [ok] nor
    [error] adds the status line and nothing else: the returned text is
    [Status: <status>] followed by the notification lines. *)
Theorem other_status_adds_status_line_only
    (w : world) (s : server) (st : loop_state) (reply : message) (x : string) :
  submits w s = true ->
  iopub_loop (msg_id w) (iopub_start_time w) (iopub w) initial = Break st ->
  shell w = Got reply ->
  is_for reply (msg_id w) = true ->
  status (msg_content reply) = Some x ->
  x <> "ok" -> x <> "error" ->
  shell_reply (msg_id w) (outputs st) (shell w)
  = ("Status: " ++ x) :: outputs st
  /\ fst (send_command command w s)
     = Returned (Py.join_lines (("Status: " ++ x) :: Py.filter_none (outputs st)))
  /\ (Py.has_char "010"%char x = false ->
      exists message,
        fst (send_command command w s) = Returned message
        /\ first_line message = "Status: " ++ x).
Proof.
  intros Hsub Hloop Hshell Hfor Hx Hok Herr.
  apply String.eqb_neq in Hok, Herr.
  assert (Hreply : shell_reply (msg_id w) (outputs st) (shell w)
                   = ("Status: " ++ x) :: outputs st).
  { rewrite Hshell. unfold shell_reply. rewrite Hfor, Hx. cbn.
    now rewrite Herr, Hok. }
  assert (Htext : fst (send_command command w s)
                  = Returned (Py.join_lines
                            (("Status: " ++ x) :: Py.filter_none (outputs st)))).
  { rewrite (send_command_submitted command w s Hsub), Hloop, Hreply.
    reflexivity. }
  repeat split; [exact Hreply | exact Htext |].
  intros Hnl. eexists. split; [exact Htext|].
  apply first_line_join. cbn. exact Hnl.
Qed.

(** C2.  The passes that meet a notification of another request add no
    line, and the call returns the same text and leaves the same state as
    if those notifications had never been in the queue. *)
Theorem foreign_notifications_leave_no_trace (w : world) (s : server) :
  foreign_polled (msg_id w) (iopub_start_time w) (iopub w) = true ->
  send_command command (with_iopub w (without_foreign (msg_id w) (iopub w))) s
  = send_command command w s
  /\ forall pass,
       In pass (iopub w) -> foreign (msg_id w) pass = true ->
       pass_lines (msg_id w) (iopub_start_time w) pass = [].
Proof.
  intros Hpolled. split.
  - unfold send_command, after_execution.
    cbn [with_iopub launched msg_id iopub_start_time iopub shell survives].
    now rewrite (iopub_loop_without_foreign _ _ _ _ Hpolled).
  - intros pass Hin Hfor. apply foreign_pass_lines; [exact Hfor|].
    unfold foreign_polled in Hpolled. rewrite forallb_forall in Hpolled.
    specialize (Hpolled pass Hin). rewrite Hfor in Hpolled.
    now apply negb_true_iff in Hpolled.
Qed.

End StatusLine.



Lemma other_status_adds_status_line_only_witness :
  fst (send_command "x = 1"
         (Sample.run (Got (Sample.reply_msg "m1" "aborted" 0))) Sample.up)
  = Returned (Py.join_lines
            ["Status: aborted"; "  Kernel Status: busy"; "  Stdout: hi";
             "  Kernel Status: idle"]).
Proof.
  apply (other_status_adds_status_line_only "x = 1"
           (Sample.run (Got (Sample.reply_msg "m1" "aborted" 0))) Sample.up
           (report_idle
              (extend initial
                 ["  Kernel Status: busy"; "  Stdout: hi";
                  "  Kernel Status: idle"]))
           (Sample.reply_msg "m1" "aborted" 0) "aborted");
    try reflexivity; discriminate.
Defined.

Lemma foreign_notifications_leave_no_trace_witness :
  send_command "print('hi')"
    (with_iopub (Sample.run Empty)
       [ (100.1%Q, Got (Sample.status_msg "m1" "busy"));
         (100.3%Q, Got (Sample.stream_msg "m1" "stdout" ("hi" ++ Py.nl)));
         (100.4%Q, Got (Sample.status_msg "m1" "idle"));
         (100.9%Q, Empty) ])
    Sample.up
  = send_command "print('hi')" (Sample.run Empty) Sample.up.
Proof.
  apply (foreign_notifications_leave_no_trace "print('hi')"
           (Sample.run Empty) Sample.up).
  reflexivity.
Defined.

(** ** The reset operation *)

(** C10.  [clear_kernel] reports success exactly when the text returned
    for the reset directive contains [Status: ok] and contains [error] in
    no letter case, and reports potential issues otherwise; either way the
    whole returned text follows the summary. *)
Theorem clear_kernel_summary (w : world) (s s' : server) (output : string) :
  send_command "%reset -f" w s = (Returned output, s') ->
  (clear_kernel w s
   = (Returned ("IPython kernel environment cleared successfully." ++ Py.nl
            ++ "Details:" ++ Py.nl ++ output), s')
   <-> occurs "Status: ok" output /\ ~ occurs_in_any_case "error" output)
  /\ (clear_kernel w s
      = (Returned ("IPython kernel clear command finished with potential issues."
               ++ Py.nl ++ "Details:" ++ Py.nl ++ output), s')
      <-> ~ (occurs "Status: ok" output /\ ~ occurs_in_any_case "error" output)).
Proof.
  intros Hsend. unfold clear_kernel. rewrite Hsend.
  pose proof (contains_iff "Status: ok" output) as Hok.
  pose proof (contains_lower_iff "error" output) as Herr.
  destruct (Py.contains "Status: ok" output);
    destruct (Py.contains "error" (Py.lower output)); cbn [negb andb].
  - split; split.
    + discriminate.
    + intros [_ Hno]. exfalso. apply Hno, Herr. reflexivity.
    + intros _ [_ Hno]. apply Hno, Herr. reflexivity.
    + reflexivity.
  - split; split.
    + intros _. split; [now apply Hok|].
      intros H. apply Herr in H. discriminate.
    + reflexivity.
    + discriminate.
    + intros H. exfalso. apply H. split; [now apply Hok|].
      intros H'. apply Herr in H'. discriminate.
  - split; split.
    + discriminate.
    + intros [H _]. apply Hok in H. discriminate.
    + intros _ [H _]. apply Hok in H. discriminate.
    + reflexivity.
  - split; split.
    + discriminate.
    + intros [H _]. apply Hok in H. discriminate.
    + intros _ [H _]. apply Hok in H. discriminate.
    + reflexivity.
Qed.

(** A reset that succeeded but printed the word [Error] is reported as
    having potential issues. *)
Lemma clear_kernel_summary_witness :
  fst (clear_kernel Sample.noisy_reset Sample.up)
  = Returned (Py.join_lines
            ["IPython kernel clear command finished with potential issues.";
             "Details:"; "Status: ok"; "  Stderr: No Error here";
             "  Kernel Status: idle"; "  Execution Count: 7"])
  /\ ~ (occurs "Status: ok"
          (Py.join_lines
             ["Status: ok"; "  Stderr: No Error here"; "  Kernel Status: idle";
              "  Execution Count: 7"])
        /\ ~ occurs_in_any_case "error"
               (Py.join_lines
                  ["Status: ok"; "  Stderr: No Error here";
                   "  Kernel Status: idle"; "  Execution Count: 7"])).
Proof.
  split; [reflexivity|].
  apply (clear_kernel_summary Sample.noisy_reset Sample.up
           (record_history "%reset -f" Sample.up)
           (Py.join_lines
              ["Status: ok"; "  Stderr: No Error here"; "  Kernel Status: idle";
               "  Execution Count: 7"])
           eq_refl).
  reflexivity.
Defined.

(** ** Concurrent calls *)

Module TasksFacts.

Import Tasks.
Local Open Scope list_scope.

Lemma active_calls_insert (before after : calls) (p : pc) :
  active_calls (before ++ p :: after)
  = active_calls (before ++ after) + (if active p then 1 else 0).
Proof.
  unfold active_calls. rewrite !filter_app, !length_app. cbn [filter].
  destruct (active p); cbn [List.length]; lia.
Qed.

Lemma in_flight_le_active (c : calls) :
  submissions_in_flight c <= active_calls c.
Proof.
  unfold submissions_in_flight, active_calls.
  induction c as [|p c IH]; cbn [filter]; [lia|].
  destruct p; cbn [in_flight active List.length]; lia.
Qed.

Lemma step_in_turn_one_active (c c' : calls) :
  active_calls c <= 1 -> step_in_turn c c' -> active_calls c' <= 1.
Proof.
  intros Hc Hstep. destruct Hstep as [before after Hnone | before after p p' Hp Hres].
  - rewrite active_calls_insert, Hnone. cbn. lia.
  - rewrite active_calls_insert in *. rewrite Hp in Hc.
    destruct (active p'); lia.
Qed.

Lemma steps_in_turn_one_active (c c' : calls) :
  active_calls c <= 1 -> steps_in_turn c c' -> active_calls c' <= 1.
Proof.
  intros Hc Hsteps. induction Hsteps as [c | c c' c'' Hsteps IH Hstep].
  - exact Hc.
  - apply (step_in_turn_one_active c' c''); [apply IH; exact Hc | exact Hstep].
Qed.

(** C3, as amended.  [send_command] takes no lock.  Submissions are in
    flight one at a time when the calls themselves do not overlap: if
    every call is entered only while no other call is active, then at no
    point of the run is more than one submission in flight. *)
Theorem calls_in_turn_one_in_flight (c c' : calls) :
  active_calls c = 0 ->
  steps_in_turn c c' ->
  submissions_in_flight c' <= 1.
Proof.
  intros Hc Hsteps.
  pose proof (in_flight_le_active c') as Hle.
  assert (active_calls c' <= 1); [|lia].
  apply (steps_in_turn_one_active c c'); [lia | exact Hsteps].
Qed.

(** C3 fails as stated: one call is resumed up to its notification loop,
    then the other; both submissions are in flight. *)
Lemma both_calls_in_flight :
  steps [Entry; Entry] [PollingIOPub; PollingIOPub]
  /\ submissions_in_flight [PollingIOPub; PollingIOPub] = 2
  /\ ~ (forall c, steps [Entry; Entry] c -> submissions_in_flight c <= 1).
Proof.
  assert (Hrun : steps [Entry; Entry] [PollingIOPub; PollingIOPub]).
  { apply steps_step with (c' := [PollingIOPub; Executing]).
    apply steps_step with (c' := [PollingIOPub; Entry]).
    apply steps_step with (c' := [Executing; Entry]).
    apply steps_step with (c' := [Entry; Entry]).
    - apply steps_refl.
    - apply (step_resume [] [Entry] Entry Executing resume_entry).
    - apply (step_resume [] [Entry] Executing PollingIOPub resume_submitted).
    - apply (step_resume [PollingIOPub] [] Entry Executing resume_entry).
    - apply (step_resume [PollingIOPub] [] Executing PollingIOPub
               resume_submitted). }
  split; [exact Hrun|]. split; [reflexivity|].
  intros Hclaim. specialize (Hclaim _ Hrun). cbn in Hclaim. lia.
Qed.

Lemma calls_in_turn_one_in_flight_witness :
  submissions_in_flight [Returned; PollingIOPub] <= 1.
Proof.
  apply (calls_in_turn_one_in_flight [Entry; Entry] [Returned; PollingIOPub]).
  - reflexivity.
  - apply turns_step with (c' := [Returned; Executing]).
    apply turns_step with (c' := [Returned; Entry]).
    apply turns_step with (c' := [AwaitingShell; Entry]).
    apply turns_step with (c' := [PollingIOPub; Entry]).
    apply turns_step with (c' := [Executing; Entry]).
    apply turns_step with (c' := [Entry; Entry]).
    + apply turns_refl.
    + apply (turn_enter [] [Entry]). reflexivity.
    + apply (turn_resume [] [Entry] Executing PollingIOPub eq_refl
               resume_submitted).
    + apply (turn_resume [] [Entry] PollingIOPub AwaitingShell eq_refl
               resume_loop_exit).
    + apply (turn_resume [] [Entry] AwaitingShell Returned eq_refl
               resume_reply).
    + apply (turn_enter [Returned] []). reflexivity.
    + apply (turn_resume [Returned] [] Executing PollingIOPub eq_refl
               resume_submitted).
Defined.

End TasksFacts.

(** ** The history file across calls *)

Section HistoryFile.

Lemma header_truthy : Py.truthy HistoryManager.header = true.
Proof. reflexivity. Qed.

Lemma truthy_app_l (a b : string) :
  Py.truthy a = true -> Py.truthy (a ++ b) = true.
Proof. now destruct a. Qed.

(** The header is written to an empty file only, and once: creating the
    history manager again changes nothing, a file that already has text is
    left alone, and a file that can be opened has text afterwards. *)
Theorem ensure_history_file_once (f : file) :
  HistoryManager.ensure_history_file (HistoryManager.ensure_history_file f)
  = HistoryManager.ensure_history_file f
  /\ (Py.truthy (contents f) = true -> HistoryManager.ensure_history_file f = f)
  /\ (openable f = true ->
      Py.truthy (contents (HistoryManager.ensure_history_file f)) = true
      /\ (contents f = "" ->
          contents (HistoryManager.ensure_history_file f)
          = HistoryManager.header)).
Proof.
  destruct f as [text o]. unfold HistoryManager.ensure_history_file.
  cbn [contents openable]. destruct o; cbn [contents openable].
  - destruct text as [|c text]; cbn; repeat split; try reflexivity;
      try discriminate.
  - repeat split; try reflexivity; discriminate.
Qed.

Lemma ensure_history_file_once_witness :
  contents (HistoryManager.ensure_history_file Sample.empty_history)
  = HistoryManager.header.
Proof.
  apply (ensure_history_file_once Sample.empty_history); reflexivity.
Defined.

Lemma save_command_recordable (command : string) (f : file) :
  HistoryManager.save_command command f
  = if openable f && recordable command
    then write f (history_line command) else f.
Proof.
  unfold HistoryManager.save_command, recordable. now destruct (openable f).
Qed.

Lemma save_command_openable (command : string) (f : file) :
  openable (HistoryManager.save_command command f) = openable f.
Proof.
  rewrite save_command_recordable.
  now destruct (openable f && recordable command).
Qed.

Lemma ensure_openable (f : file) :
  openable (HistoryManager.ensure_history_file f) = openable f.
Proof.
  unfold HistoryManager.ensure_history_file.
  destruct (openable f) eqn:Ho; [|exact Ho].
  now destruct (negb (Py.truthy (contents f))).
Qed.

(** The history a call leaves when the kernel check passes: the history
    manager exists and the command has been saved, whether the call then
    submits or raises. *)
Lemma send_command_up (command : string) (w : world) (s : server) :
  kernel_down s = false ->
  history_manager (snd (send_command command w s)) = true
  /\ history (snd (send_command command w s))
     = HistoryManager.save_command command
         (if history_manager s then history s
          else HistoryManager.ensure_history_file (history s)).
Proof.
  intros Hup. unfold send_command. rewrite Hup.
  destruct (negb (kc_channels_running (record_history command s)));
    [auto|].
  destruct (iopub_loop _ _ _ _); auto.
Qed.

(** The kernel is still up after a call that found it up, unless the
    submitted code killed it. *)
Lemma send_command_stays_up (command : string) (w : world) (s : server) :
  kernel_down s = false ->
  survives w = true ->
  kernel_down (snd (send_command command w s)) = false.
Proof.
  intros Hup Hlives. unfold send_command. rewrite Hup.
  unfold kernel_down, km_alive in Hup.
  destruct (kc s) as [c|] eqn:Hkc; [|discriminate].
  destruct (km s) as [m|] eqn:Hkm; [|discriminate].
  cbn in Hup.
  destruct (negb (kc_channels_running (record_history command s))).
  - cbn [snd]. unfold kernel_down, km_alive. cbn. now rewrite Hkc, Hkm.
  - destruct (iopub_loop _ _ _ _); cbn [snd];
      unfold after_execution, kernel_down, km_alive; cbn;
        now rewrite Hkc, Hlives.
Qed.

Lemma start_keeps_history (l : launch) (s : server) :
  history (snd (start_ipython_kernel l s)) = history s
  /\ history_manager (snd (start_ipython_kernel l s)) = history_manager s.
Proof.
  unfold start_ipython_kernel, shutdown_ipython_kernel.
  destruct (km_alive s); [auto|].
  destruct l as [e|e|e|e running|alive|e|]; auto.
  now destruct alive.
Qed.

Lemma send_command_down (command : string) (w : world) (s : server) :
  kernel_down s = true ->
  history (snd (send_command command w s)) = history s
  /\ history_manager (snd (send_command command w s)) = history_manager s.
Proof.
  intros Hdown. unfold send_command. rewrite Hdown.
  pose proof (start_keeps_history (launched w) s) as H.
  now destruct (start_ipython_kernel (launched w) s) as [[[]|e] s'].
Qed.

End HistoryFile.

Section Sessions.

Lemma concat_empty_cons (x : string) (l : list string) :
  String.concat "" (x :: l) = x ++ String.concat "" l.
Proof.
  destruct l as [|y l]; cbn [String.concat].
  - now rewrite append_nil_r.
  - reflexivity.
Qed.

Lemma history_lines_cons (command : string) (commands : list string) :
  history_lines (command :: commands)
  = (if recordable command then history_line command else "")
    ++ history_lines commands.
Proof.
  unfold history_lines. cbn [filter].
  destruct (recordable command); [|reflexivity].
  cbn [map]. apply concat_empty_cons.
Qed.

Lemma save_command_contents (command : string) (f : file) :
  openable f = true ->
  contents (HistoryManager.save_command command f)
  = contents f ++ (if recordable command then history_line command else "").
Proof.
  intros Ho. rewrite save_command_recordable, Ho. cbn [andb].
  destruct (recordable command); cbn; [reflexivity|].
  now rewrite append_nil_r.
Qed.

Lemma session_history_initialised (calls : list (string * world)) (s : server) :
  kernel_down s = false ->
  forallb (fun call => survives (snd call)) calls = true ->
  openable (history s) = true ->
  history_manager s = true ->
  contents (history (session calls s))
  = contents (history s) ++ history_lines (map fst calls).
Proof.
  revert s; induction calls as [|[command w] calls IH];
    intros s Hup Hlive Ho Hm.
  - cbn. now rewrite append_nil_r.
  - cbn [session map fst]. cbn [forallb snd] in Hlive.
    apply andb_true_iff in Hlive. destruct Hlive as [Hw Hlive].
    destruct (send_command_up command w s Hup) as (Hm' & Hh).
    pose proof (send_command_stays_up command w s Hup Hw) as Hup'.
    rewrite Hm in Hh.
    rewrite (IH _ Hup' Hlive);
      [| now rewrite Hh, save_command_openable | exact Hm'].
    rewrite Hh, (save_command_contents _ _ Ho), history_lines_cons.
    now rewrite append_assoc.
Qed.

(** On a server whose kernel is up and whose history file can be opened,
    a run of calls none of which kills the kernel leaves in the file what
    was there, then the header if the file was empty when the first call
    created the history manager, then the recordable commands of the run,
    one line feed after each, in the order of the calls. *)
Theorem session_history (calls : list (string * world)) (s : server) :
  kernel_down s = false ->
  forallb (fun call => survives (snd call)) calls = true ->
  openable (history s) = true ->
  (history_manager s = true ->
   contents (history (session calls s))
   = contents (history s) ++ history_lines (map fst calls))
  /\ (history_manager s = false -> calls <> [] ->
      contents (history (session calls s))
      = contents (HistoryManager.ensure_history_file (history s))
        ++ history_lines (map fst calls)).
Proof.
  intros Hup Hlive Ho. split; [now apply session_history_initialised|].
  intros Hm Hcalls. destruct calls as [|[command w] calls]; [easy|].
  cbn [session map fst]. cbn [forallb snd] in Hlive.
  apply andb_true_iff in Hlive. destruct Hlive as [Hw Hlive].
  destruct (send_command_up command w s Hup) as (Hm' & Hh).
  pose proof (send_command_stays_up command w s Hup Hw) as Hup'.
  rewrite Hm in Hh.
  rewrite (session_history_initialised _ _ Hup' Hlive);
    [| now rewrite Hh, save_command_openable, ensure_openable | exact Hm'].
  rewrite Hh, save_command_contents by now rewrite ensure_openable.
  rewrite history_lines_cons. now rewrite append_assoc.
Qed.

Lemma session_history_witness :
  contents
    (history
       (session
          [ ("x = 42", Sample.run Empty);
            ("%reset -f", Sample.slow);
            ("   ", Sample.run Empty);
            ("print(x)", Sample.noisy_reset) ]
          Sample.up))
  = HistoryManager.header
    ++ "x = 42" ++ String "010" ("print(x)" ++ String "010" "").
Proof.
  apply (session_history
           [ ("x = 42", Sample.run Empty);
             ("%reset -f", Sample.slow);
             ("   ", Sample.run Empty);
             ("print(x)", Sample.noisy_reset) ]
           Sample.up);
    try reflexivity; discriminate.
Defined.

Lemma send_command_appends (command : string) (w : world) (s : server) :
  exists suffix,
    contents (history (snd (send_command command w s)))
    = contents (history s) ++ suffix.
Proof.
  destruct (kernel_down s) eqn:Hdown.
  - destruct (send_command_down command w s Hdown) as [-> _].
    exists "". now rewrite append_nil_r.
  - destruct (send_command_up command w s Hdown) as (_ & ->).
    rewrite save_command_recordable.
    unfold HistoryManager.ensure_history_file.
    destruct (history_manager s), (openable (history s)) eqn:Ho;
      cbn [andb]; try rewrite Ho; cbn [andb].
    + destruct (recordable command); cbn; eexists;
        [reflexivity | now rewrite append_nil_r].
    + exists "". now rewrite append_nil_r.
    + destruct (negb (Py.truthy (contents (history s)))); cbn [openable write];
        rewrite Ho; cbn [andb]; destruct (recordable command); cbn;
          rewrite ?append_assoc; eexists;
            try reflexivity; now rewrite append_nil_r.
    + exists "". now rewrite append_nil_r.
Qed.

(** The history file is append-only: whatever the calls of a run and
    whatever the kernel does, the text the file had before the run is the
    beginning of the text it has after. *)
Theorem session_appends (calls : list (string * world)) (s : server) :
  exists suffix,
    contents (history (session calls s)) = contents (history s) ++ suffix.
Proof.
  revert s; induction calls as [|[command w] calls IH]; intros s.
  - exists "". cbn. now rewrite append_nil_r.
  - cbn [session].
    destruct (IH (snd (send_command command w s))) as [later ->].
    destruct (send_command_appends command w s) as [sooner ->].
    exists (sooner ++ later). now rewrite append_assoc.
Qed.

(** The reset directive is never written to the history file: after
    [clear_kernel] the file is as it was, but for the header a first call
    puts into an empty file. *)
Theorem clear_kernel_not_recorded (w : world) (s : server) :
  history (snd (clear_kernel w s))
  = if kernel_down s || history_manager s then history s
    else HistoryManager.ensure_history_file (history s).
Proof.
  assert (Hsnd : snd (clear_kernel w s) = snd (send_command "%reset -f" w s)).
  { unfold clear_kernel.
    destruct (send_command "%reset -f" w s) as [[output|e|] s'];
      try reflexivity.
    now destruct (Py.contains "Status: ok" output
                  && negb (Py.contains "error" (Py.lower output))). }
  rewrite Hsnd. destruct (kernel_down s) eqn:Hdown; cbn [orb].
  - now destruct (send_command_down "%reset -f" w s Hdown) as [-> _].
  - destruct (send_command_up "%reset -f" w s Hdown) as (_ & ->).
    rewrite save_command_recordable.
    replace (recordable "%reset -f") with false by reflexivity.
    rewrite andb_false_r. now destruct (history_manager s).
Qed.

End Sessions.

(** ** The restart path *)

Section Restart.

Variable command : string.

(** A call that finds the kernel manager missing or dead attempts one
    launch and returns without submitting or recording anything.  If the
    launch succeeds the kernel is up for the next call.  If the kernel
    never gets ready and has died, both globals are torn down and the
    text says so; if it never gets ready but is alive, the shutdown
    raises at [km.wait], the text carries that fault, the client is
    dropped and the manager stays set.  If a statement of the launch
    raises, the text carries its fault and the globals are as that
    statement left them. *)
Theorem dead_kernel_call (w : world) (s : server) :
  km_alive s = false ->
  history (snd (send_command command w s)) = history s
  /\ match launched w with
     | Ready =>
         fst (send_command command w s)
         = Returned "Error: IPython kernel was not running. It has been restarted. Please try your command again."
         /\ kernel_down (snd (send_command command w s)) = false
         /\ kc_channels_running (snd (send_command command w s)) = true
     | NeverReady false =>
         fst (send_command command w s)
         = Returned "Error: IPython kernel not available and failed to restart: Failed to connect to IPython kernel in time."
         /\ km (snd (send_command command w s)) = None
         /\ kc (snd (send_command command w s)) = None
     | NeverReady true =>
         fst (send_command command w s)
         = Returned "Error: IPython kernel not available and failed to restart: 'KernelManager' object has no attribute 'wait'"
         /\ km (snd (send_command command w s)) <> None
         /\ kc (snd (send_command command w s)) = None
     | ManagerRaises e =>
         send_command command w s
         = (Returned ("Error: IPython kernel not available and failed to restart: " ++ e), s)
     | LaunchRaises e =>
         fst (send_command command w s)
         = Returned ("Error: IPython kernel not available and failed to restart: " ++ e)
         /\ km (snd (send_command command w s)) = Some {| is_alive := false |}
         /\ kc (snd (send_command command w s)) = kc s
     | ClientRaises e =>
         fst (send_command command w s)
         = Returned ("Error: IPython kernel not available and failed to restart: " ++ e)
         /\ km_alive (snd (send_command command w s)) = true
         /\ kc (snd (send_command command w s)) = kc s
     | ChannelsRaise e running =>
         fst (send_command command w s)
         = Returned ("Error: IPython kernel not available and failed to restart: " ++ e)
         /\ km_alive (snd (send_command command w s)) = true
         /\ kc (snd (send_command command w s))
            = Some {| channels_running := running |}
     | WaitRaises e =>
         fst (send_command command w s)
         = Returned ("Error: IPython kernel not available and failed to restart: " ++ e)
         /\ kernel_down (snd (send_command command w s)) = false
         /\ kc_channels_running (snd (send_command command w s)) = true
     end.
Proof.
  intros Hdead.
  assert (Hdown : kernel_down s = true).
  { unfold kernel_down. rewrite Hdead. cbn. apply orb_true_r. }
  split; [now apply send_command_down|].
  unfold send_command, start_ipython_kernel, shutdown_ipython_kernel.
  rewrite Hdown, Hdead.
  destruct (launched w) as [e|e|e|e running|[|]|e|]; cbn; auto.
  repeat split; discriminate.
Qed.

(** With a live kernel manager but no client, a call launches nothing:
    it reports a restart and leaves the server as it was, so every later
    call does the same. *)
Theorem clientless_server_is_stuck
    (w : world) (s : server) (calls : list (string * world)) :
  km_alive s = true ->
  kc s = None ->
  send_command command w s
  = (Returned "Error: IPython kernel was not running. It has been restarted. Please try your command again.", s)
  /\ session calls s = s.
Proof.
  intros Halive Hkc.
  assert (Hcall : forall c' w',
             send_command c' w' s
             = (Returned "Error: IPython kernel was not running. It has been restarted. Please try your command again.", s)).
  { intros c' w'. unfold send_command, kernel_down, start_ipython_kernel.
    now rewrite Hkc, Halive. }
  split; [apply Hcall|].
  induction calls as [|[c' w'] calls IH]; [reflexivity|].
  cbn [session]. now rewrite Hcall.
Qed.

End Restart.

Lemma dead_kernel_call_witness :
  (fst (send_command "x = 1" (Sample.run Empty) Sample.down)
   = Returned "Error: IPython kernel was not running. It has been restarted. Please try your command again."
   /\ kernel_down (snd (send_command "x = 1" (Sample.run Empty) Sample.down))
      = false)
  /\ fst (send_command "x = 1"
            {| launched := NeverReady true; msg_id := "m1";
               iopub_start_time := 100%Q; iopub := []; shell := Empty;
               survives := true |}
            Sample.down)
     = Returned "Error: IPython kernel not available and failed to restart: 'KernelManager' object has no attribute 'wait'".
Proof.
  split.
  - destruct (dead_kernel_call "x = 1" (Sample.run Empty) Sample.down eq_refl)
      as (_ & Htext & Hup & _).
    split; [exact Htext | exact Hup].
  - destruct (dead_kernel_call "x = 1"
                {| launched := NeverReady true; msg_id := "m1";
                   iopub_start_time := 100%Q; iopub := []; shell := Empty;
                   survives := true |}
                Sample.down eq_refl)
      as (_ & Htext & _).
    exact Htext.
Defined.

Lemma clientless_server_is_stuck_witness :
  session [("x = 1", Sample.run Empty); ("x", Sample.slow)]
    (set_kernel Sample.up (Some {| is_alive := true |}) None)
  = set_kernel Sample.up (Some {| is_alive := true |}) None.
Proof.
  apply (clientless_server_is_stuck "x = 1" (Sample.run Empty)
           (set_kernel Sample.up (Some {| is_alive := true |}) None)
           [("x = 1", Sample.run Empty); ("x", Sample.slow)]);
    reflexivity.
Defined.

(** ** How the notification loop ends and what it keeps *)

Section LoopInvariants.

Variable msg_id : string.
Variable iopub_start_time : Q.

Lemma interpret_sets_idle (m : message) (st st' : loop_state) :
  interpret m st = Ok st' ->
  kernel_reported_idle_for_request st = false ->
  kernel_reported_idle_for_request st' = true ->
  msg_type m = "status" /\ execution_state (msg_content m) = Some "idle".
Proof.
  unfold interpret.
  destruct (String.eqb (msg_type m) "status") eqn:Hty.
  { apply String.eqb_eq in Hty.
    destruct (execution_state (msg_content m)) as [x|]; cbn; [|discriminate].
    destruct (String.eqb x "idle") eqn:Hx.
    - apply String.eqb_eq in Hx. subst x. auto.
    - intros H; injection H as <-. cbn. congruence. }
  destruct (String.eqb (msg_type m) "stream").
  { destruct (name (msg_content m)); cbn; [|discriminate].
    destruct (text (msg_content m)); cbn; [|discriminate].
    intros H; injection H as <-. cbn. congruence. }
  destruct (String.eqb (msg_type m) "execute_result").
  { destruct (Py.truthy _); intros H; injection H as <-; cbn; congruence. }
  destruct (String.eqb (msg_type m) "display_data").
  { destruct (data (msg_content m)); cbn; [|discriminate].
    intros H; injection H as <-. cbn. congruence. }
  destruct (String.eqb (msg_type m) "error").
  { destruct (get (traceback (msg_content m)) []);
      intros H; injection H as <-; cbn; congruence. }
  intros H; injection H as <-. congruence.
Qed.

(** The idle flag is set by nothing but a status message of this request
    that reports [idle], polled within the overall timeout. *)
Theorem idle_flag_comes_from_idle_status
    (passes : list (Q * poll)) (st : loop_state) :
  kernel_reported_idle_for_request st = false ->
  kernel_reported_idle_for_request
    (locals (iopub_loop msg_id iopub_start_time passes st)) = true ->
  exists now m,
    In (now, Got m) passes
    /\ timed_out iopub_start_time now = false
    /\ is_for m msg_id = true
    /\ msg_type m = "status"
    /\ execution_state (msg_content m) = Some "idle".
Proof.
  revert st; induction passes as [|[now p] passes IH]; intros st Hst; cbn.
  - congruence.
  - destruct (timed_out iopub_start_time now) eqn:Hnow; [cbn; congruence|].
    assert (Hlater :
              forall st',
                kernel_reported_idle_for_request st' = false ->
                kernel_reported_idle_for_request
                  (locals (iopub_loop msg_id iopub_start_time passes st'))
                = true ->
                exists now' m,
                  ((now, p) = (now', Got m) \/ In (now', Got m) passes)
                  /\ timed_out iopub_start_time now' = false
                  /\ is_for m msg_id = true
                  /\ msg_type m = "status"
                  /\ execution_state (msg_content m) = Some "idle").
    { intros st' Hst' Hend.
      destruct (IH st' Hst' Hend) as (now' & m & Hin & H).
      exists now', m. auto. }
    destruct p as [m| |e].
    + destruct (is_for m msg_id) eqn:Hfor; [|now apply Hlater].
      destruct (interpret m st) as [st'|e] eqn:Hm; [|cbn; congruence].
      destruct (kernel_reported_idle_for_request st') eqn:Hst';
        [|now apply Hlater].
      intros _. destruct (interpret_sets_idle m st st' Hm Hst Hst') as [Hty Hx].
      exists now, m. auto 6.
    + rewrite Hst. apply Hlater. exact Hst.
    + cbn. congruence.
Qed.

(** The loop ends in one of three ways only, at the first pass that:
    reads the clock more than 10 past the start, and then the marker is
    appended; or, within the timeout, meets a fault (the poll raises, or
    the interpretation of a message of this request does), and then the
    fault line is appended; or, within the timeout, polls an empty queue
    with the idle flag set, and then nothing is appended. *)
Theorem iopub_loop_exits (passes : list (Q * poll)) (st st' : loop_state) :
  iopub_loop msg_id iopub_start_time passes st = Break st' ->
  exists before now p after st1,
    passes = (before ++ (now, p) :: after)%list
    /\ iopub_loop msg_id iopub_start_time before st = Continue st1
    /\ (((10 < now - iopub_start_time)%Q
         /\ st'
            = {| outputs :=
                   app (outputs st1)
                     ["  (Overall timeout waiting for all IOPub messages or kernel to go idle for this request)"];
                 kernel_reported_idle_for_request :=
                   kernel_reported_idle_for_request st1;
                 sleeps := sleeps st1 |})
        \/ ((now - iopub_start_time <= 10)%Q
            /\ exists e,
                 (p = Fault e
                  \/ exists m,
                       p = Got m /\ is_for m msg_id = true
                       /\ interpret m st1 = Raise e)
                 /\ st'
                    = {| outputs :=
                           app (outputs st1)
                             ["Exception while processing IOPub message: " ++ e];
                         kernel_reported_idle_for_request :=
                           kernel_reported_idle_for_request st1;
                         sleeps := sleeps st1 |})
        \/ ((now - iopub_start_time <= 10)%Q
            /\ p = Empty
            /\ kernel_reported_idle_for_request st1 = true
            /\ st' = st1)).
Proof.
  revert st; induction passes as [|[now p] passes IH]; intros st.
  - discriminate.
  - cbn [iopub_loop].
    destruct (loop_body msg_id iopub_start_time (now, p) st) as [st2|st2]
      eqn:Hbody.
    + intros H; injection H as <-.
      exists [], now, p, passes, st. split; [reflexivity|].
      split; [reflexivity|].
      cbn in Hbody.
      destruct (timed_out iopub_start_time now) eqn:Hnow.
      * left. split; [now apply timed_out_iff|]. now injection Hbody as <-.
      * assert (Hin : (now - iopub_start_time <= 10)%Q).
        { apply Qnot_lt_le. intros Hlt. apply timed_out_iff in Hlt.
          congruence. }
        right. destruct p as [m| |e].
        -- destruct (is_for m msg_id) eqn:Hfor; [|discriminate].
           destruct (interpret m st) as [st3|e] eqn:Hm; [discriminate|].
           left. split; [exact Hin|]. exists e. split.
           ++ right. exists m. auto.
           ++ now injection Hbody as <-.
        -- destruct (kernel_reported_idle_for_request st) eqn:Hidle;
             [|discriminate].
           right. injection Hbody as <-. auto.
        -- left. split; [exact Hin|]. exists e. split; [now left|].
           now injection Hbody as <-.
    + intros Hloop.
      destruct (IH st2 Hloop)
        as (before & now' & p' & after & st1 & -> & Hbefore & Hcause).
      exists ((now, p) :: before), now', p', after, st1.
      split; [reflexivity|]. split; [|exact Hcause].
      cbn [iopub_loop]. now rewrite Hbody.
Qed.

Lemma interpret_sleeps (m : message) (st st' : loop_state) :
  interpret m st = Ok st' ->
  sleeps st' = sleeps st
  /\ (kernel_reported_idle_for_request st = true ->
      kernel_reported_idle_for_request st' = true).
Proof.
  intros Hm. pose proof (interpret_frame m st) as H. rewrite Hm in H.
  destruct (interpret m initial); [|contradiction].
  destruct H as (_ & Hidle & Hsleeps). split; [exact Hsleeps|].
  intros Hst. now rewrite Hidle, Hst.
Qed.

(** The loop pauses at most once for each empty poll, and never once the
    idle status has been seen. *)
Theorem iopub_loop_sleeps (passes : list (Q * poll)) (st : loop_state) :
  sleeps st <= sleeps (locals (iopub_loop msg_id iopub_start_time passes st))
  /\ sleeps (locals (iopub_loop msg_id iopub_start_time passes st))
     <= sleeps st + List.length (filter polls_empty passes)
  /\ (kernel_reported_idle_for_request st = true ->
      sleeps (locals (iopub_loop msg_id iopub_start_time passes st))
      = sleeps st).
Proof.
  revert st; induction passes as [|[now p] passes IH]; intros st;
    cbn [iopub_loop loop_body filter].
  - cbn. repeat split; lia.
  - destruct (timed_out iopub_start_time now); [cbn; repeat split; lia|].
    destruct p as [m| |e]; cbn [polls_empty snd].
    + destruct (is_for m msg_id); [|apply IH].
      destruct (interpret m st) as [st1|e] eqn:Hm; [|cbn; repeat split; lia].
      destruct (interpret_sleeps m st st1 Hm) as [Hs Hi].
      destruct (IH st1) as (Hlo & Hhi & Hidle). rewrite Hs in *.
      repeat split; auto.
    + destruct (kernel_reported_idle_for_request st) eqn:Hst;
        [cbn; repeat split; lia|].
      destruct (IH (sleep st)) as (Hlo & Hhi & _). cbn [sleep sleeps] in *.
      cbn [List.length]. repeat split; try lia; discriminate.
    + cbn. repeat split; lia.
Qed.

End LoopInvariants.

Lemma idle_flag_comes_from_idle_status_witness :
  exists now m,
    In (now, Got m) Sample.passes
    /\ timed_out 100%Q now = false
    /\ is_for m "m1" = true
    /\ msg_type m = "status"
    /\ execution_state (msg_content m) = Some "idle".
Proof.
  apply (idle_flag_comes_from_idle_status "m1" 100%Q Sample.passes initial);
    reflexivity.
Defined.

Lemma iopub_loop_exits_witness :
  exists before now p after st1,
    Sample.passes = (before ++ (now, p) :: after)%list
    /\ iopub_loop "m1" 100%Q before initial = Continue st1.
Proof.
  destruct (iopub_loop_exits "m1" 100%Q Sample.passes initial
              {| outputs :=
                   ["  Kernel Status: busy"; "  Stdout: hi";
                    "  Kernel Status: idle"];
                 kernel_reported_idle_for_request := true; sleeps := 0 |}
              eq_refl)
    as (before & now & p & after & st1 & Hsplit & Hbefore & _).
  exists before, now, p, after, st1. split; [exact Hsplit | exact Hbefore].
Defined.

Lemma iopub_loop_sleeps_witness :
  sleeps
    (locals
       (iopub_loop "m1" 100%Q [(100.5%Q, Empty); (101%Q, Empty)]
          (report_idle initial)))
  = 0.
Proof.
  apply (iopub_loop_sleeps "m1" 100%Q [(100.5%Q, Empty); (101%Q, Empty)]
           (report_idle initial)).
  reflexivity.
Defined.

(** ** The lines of the returned text *)

Section Lines.

Lemma indent_truthy (tb : list string) :
  Forall (fun l => Py.truthy l = true) (map indent tb).
Proof. induction tb; cbn; constructor; auto. Qed.

Lemma interpret_lines_truthy (m : message) (st : loop_state) :
  interpret m initial = Ok st ->
  Forall (fun l => Py.truthy l = true) (outputs st).
Proof.
  unfold interpret.
  destruct (String.eqb (msg_type m) "status").
  { destruct (execution_state (msg_content m)) as [x|]; cbn; [|discriminate].
    intros H; injection H as <-.
    destruct (String.eqb x "idle"); cbn; repeat constructor. }
  destruct (String.eqb (msg_type m) "stream").
  { destruct (name (msg_content m)); cbn; [|discriminate].
    destruct (text (msg_content m)); cbn; [|discriminate].
    intros H; injection H as <-. cbn. repeat constructor. }
  destruct (String.eqb (msg_type m) "execute_result").
  { destruct (Py.truthy _); intros H; injection H as <-; cbn;
      repeat constructor. }
  destruct (String.eqb (msg_type m) "display_data").
  { destruct (data (msg_content m)); cbn; [|discriminate].
    intros H; injection H as <-. cbn. repeat constructor. }
  destruct (String.eqb (msg_type m) "error").
  { destruct (get (traceback (msg_content m)) []) as [|l tb] eqn:Htb;
      intros H; injection H as <-; cbn.
    - repeat constructor.
    - constructor; [reflexivity|]. constructor; [reflexivity|].
      apply (indent_truthy (l :: tb)). }
  intros H; injection H as <-. constructor.
Qed.

Lemma pass_lines_truthy (id : string) (t0 : Q) (pass : Q * poll) :
  Forall (fun l => Py.truthy l = true) (pass_lines id t0 pass).
Proof.
  unfold pass_lines, loop_body. destruct pass as [now p].
  destruct (timed_out t0 now); [cbn; repeat constructor|].
  destruct p as [m| |e]; cbn.
  - destruct (is_for m id); [|constructor].
    destruct (interpret m initial) as [st|e] eqn:Hm.
    + now apply (interpret_lines_truthy m).
    + cbn. repeat constructor.
  - constructor.
  - repeat constructor.
Qed.

Lemma loop_lines_truthy (id : string) (t0 : Q) (passes : list (Q * poll)) :
  Forall (fun l => Py.truthy l = true)
    (outputs (locals (iopub_loop id t0 passes initial))).
Proof.
  destruct (iopub_loop_outputs id t0 passes initial) as (n & _ & ->).
  cbn [outputs initial app]. apply Forall_forall. intros l Hl.
  apply in_flat_map in Hl. destruct Hl as (pass & _ & Hl).
  pose proof (pass_lines_truthy id t0 pass) as H.
  rewrite Forall_forall in H. auto.
Qed.

Lemma reply_lines_truthy (id : string) (p : poll) :
  Forall (fun l => Py.truthy l = true) (reply_lines id p).
Proof.
  unfold reply_lines, shell_reply.
  destruct p as [reply| |e]; try (cbn; repeat constructor).
  destruct (is_for reply id); [|cbn; repeat constructor].
  destruct (subscript (status (msg_content reply)) "status") as [x|e];
    [|cbn; repeat constructor].
  destruct (String.eqb x "error").
  - destruct (get (traceback (msg_content reply)) []) as [|l tb]; cbn.
    + repeat constructor.
    + constructor; [reflexivity|]. constructor; [reflexivity|].
      constructor; [reflexivity|]. apply (indent_truthy (l :: tb)).
  - destruct (String.eqb x "ok"); cbn; repeat constructor.
Qed.

Lemma filter_none_all (lines : list string) :
  Forall (fun l => Py.truthy l = true) lines -> Py.filter_none lines = lines.
Proof.
  unfold Py.filter_none. induction 1 as [|l lines Hl _ IH]; cbn.
  - reflexivity.
  - now rewrite Hl, IH.
Qed.

Lemma transcript_truthy (id : string) (t0 : Q) (passes : list (Q * poll))
    (p : poll) :
  Forall (fun l => Py.truthy l = true)
    (shell_reply id (outputs (locals (iopub_loop id t0 passes initial))) p).
Proof.
  rewrite shell_reply_around. constructor; [apply status_line_truthy|].
  apply Forall_app. split; [apply loop_lines_truthy | apply reply_lines_truthy].
Qed.

Lemma in_join_occurs (l : string) (lines : list string) :
  In l lines -> occurs l (Py.join_lines lines).
Proof.
  unfold Py.join_lines, occurs.
  induction lines as [|x lines IH]; [easy|].
  intros [-> | Hin].
  - destruct lines as [|y lines]; cbn [String.concat].
    + exists "", "". cbn. now rewrite append_nil_r.
    + exists "". eexists. reflexivity.
  - destruct (IH Hin) as (before & after & Hjoin).
    destruct lines as [|y lines]; [easy|].
    change (String.concat Py.nl (x :: y :: lines))
      with (x ++ Py.nl ++ String.concat Py.nl (y :: lines)).
    rewrite Hjoin.
    exists (x ++ Py.nl ++ before), after. now rewrite !append_assoc.
Qed.

Lemma submitted_plain_text (command : string) (w : world) (s : server)
    (st : loop_state) :
  submits w s = true ->
  iopub_loop (msg_id w) (iopub_start_time w) (iopub w) initial = Break st ->
  fst (send_command command w s)
  = Returned (Py.join_lines (shell_reply (msg_id w) (outputs st) (shell w))).
Proof.
  intros Hsub Hloop.
  pose proof (transcript_truthy (msg_id w) (iopub_start_time w) (iopub w)
                (shell w)) as Hall.
  rewrite Hloop in Hall. cbn [locals] in Hall.
  rewrite (send_command_submitted command w s Hsub), Hloop.
  now rewrite filter_none_all.
Qed.

Variable command : string.

(** No line of a transcript is empty: the filter of empty lines drops
    nothing, and the returned text is the plain join of the status line,
    the notification lines and the reply lines. *)
Theorem transcript_has_no_empty_line
    (w : world) (s : server) (st : loop_state) :
  submits w s = true ->
  iopub_loop (msg_id w) (iopub_start_time w) (iopub w) initial = Break st ->
  Forall (fun l => l <> "") (shell_reply (msg_id w) (outputs st) (shell w))
  /\ fst (send_command command w s)
     = Returned (Py.join_lines (shell_reply (msg_id w) (outputs st) (shell w))).
Proof.
  intros Hsub Hloop.
  pose proof (transcript_truthy (msg_id w) (iopub_start_time w) (iopub w)
                (shell w)) as Hall.
  rewrite Hloop in Hall. cbn [locals] in Hall. split.
  - eapply Forall_impl; [|exact Hall]. intros [|c l]; cbn; congruence.
  - now apply submitted_plain_text.
Qed.

(** Nothing a pass appends is lost: every line of every pass the loop
    goes through occurs in the returned text. *)
Theorem polled_lines_are_returned
    (w : world) (s : server) (st1 st : loop_state)
    (before after : list (Q * poll)) (pass : Q * poll) (line : string) :
  submits w s = true ->
  iopub w = (before ++ pass :: after)%list ->
  iopub_loop (msg_id w) (iopub_start_time w) before initial = Continue st1 ->
  iopub_loop (msg_id w) (iopub_start_time w) (iopub w) initial = Break st ->
  In line (pass_lines (msg_id w) (iopub_start_time w) pass) ->
  exists message,
    fst (send_command command w s) = Returned message /\ occurs line message.
Proof.
  intros Hsub Hsplit Hbefore Hloop Hline.
  assert (Hin : In line (outputs st)).
  { rewrite Hsplit, iopub_loop_app, Hbefore in Hloop. cbn [iopub_loop] in Hloop.
    pose proof (loop_body_outputs (msg_id w) (iopub_start_time w) pass st1)
      as Hpass.
    destruct (loop_body (msg_id w) (iopub_start_time w) pass st1) as [st2|st2];
      cbn [locals] in Hpass.
    - injection Hloop as <-. rewrite Hpass. apply in_or_app. now right.
    - destruct (iopub_loop_outputs (msg_id w) (iopub_start_time w) after st2)
        as (n & _ & Hout).
      rewrite Hloop in Hout. cbn [locals] in Hout.
      rewrite Hout, Hpass. apply in_or_app. left. apply in_or_app. now right. }
  eexists. split; [apply (submitted_plain_text command w s st Hsub Hloop)|].
  apply in_join_occurs. rewrite shell_reply_around.
  right. apply in_or_app. now left.
Qed.

End Lines.

Lemma transcript_has_no_empty_line_witness :
  fst (send_command "print('hi')"
         (Sample.run (Got (Sample.reply_msg "m1" "ok" 3))) Sample.up)
  = Returned (Py.join_lines
            ["Status: ok"; "  Kernel Status: busy"; "  Stdout: hi";
             "  Kernel Status: idle"; "  Execution Count: 3"]).
Proof.
  apply (transcript_has_no_empty_line "print('hi')"
           (Sample.run (Got (Sample.reply_msg "m1" "ok" 3))) Sample.up
           (report_idle
              (extend initial
                 ["  Kernel Status: busy"; "  Stdout: hi";
                  "  Kernel Status: idle"])));
    reflexivity.
Defined.

Lemma polled_lines_are_returned_witness :
  exists message,
    fst (send_command "print('hi')"
           (Sample.run (Got (Sample.reply_msg "m1" "ok" 3))) Sample.up)
    = Returned message
    /\ occurs "  Stdout: hi" message.
Proof.
  apply (polled_lines_are_returned "print('hi')"
           (Sample.run (Got (Sample.reply_msg "m1" "ok" 3))) Sample.up
           (extend initial ["  Kernel Status: busy"])
           (report_idle
              (extend initial
                 ["  Kernel Status: busy"; "  Stdout: hi";
                  "  Kernel Status: idle"]))
           [ (100.1%Q, Got (Sample.status_msg "m1" "busy"));
             (100.2%Q, Got (Sample.stream_msg "m0" "stdout" "stale")) ]
           [ (100.4%Q, Got (Sample.status_msg "m1" "idle"));
             (100.9%Q, Empty) ]
           (100.3%Q, Got (Sample.stream_msg "m1" "stdout" ("hi" ++ Py.nl))));
    try reflexivity.
  left. reflexivity.
Defined.

Lemma send_command_ends_witness :
  (exists message,
      fst (send_command "x = 1" Sample.slow Sample.up) = Returned message)
  /\ fst (send_command "x = 1" Sample.slow
            (set_kernel Sample.up (Some {| is_alive := true |})
               (Some {| channels_running := false |})))
     = Raised "'Context' object has no attribute 'warn'".
Proof.
  split.
  - apply (send_command_ends "x = 1" Sample.slow Sample.up); reflexivity.
  - apply (send_command_ends "x = 1" Sample.slow
             (set_kernel Sample.up (Some {| is_alive := true |})
                (Some {| channels_running := false |})));
      reflexivity.
Defined.

(** ** A kernel that stays silent *)

Section Silence.

Variable command : string.

Lemma silent_loop (id : string) (t0 : Q) (passes : list (Q * poll))
    (st : loop_state) :
  forallb polls_empty passes = true ->
  deadline_reached t0 passes = true ->
  kernel_reported_idle_for_request st = false ->
  exists st',
    iopub_loop id t0 passes st = Break st'
    /\ outputs st' = (outputs st ++ [timeout_marker])%list.
Proof.
  unfold deadline_reached.
  revert st; induction passes as [|[now p] passes IH]; intros st; cbn.
  - discriminate.
  - destruct p as [m| |e]; cbn; try discriminate.
    destruct (timed_out t0 now); cbn.
    + intros _ _ _. eexists. split; reflexivity.
    + intros Hall Hdeadline Hst. rewrite Hst.
      destruct (IH (sleep st) Hall Hdeadline Hst) as (st' & Hloop & Hout).
      exists st'. split; [exact Hloop | exact Hout].
Qed.

(** When the kernel sends nothing at all, the call pauses between polls
    until the overall timeout and returns the reply poll's lines around
    the timeout marker; with no reply either, that is the timeout status,
    the marker and the reply timeout note. *)
Theorem silent_kernel_times_out (w : world) (s : server) :
  submits w s = true ->
  forallb polls_empty (iopub w) = true ->
  deadline_reached (iopub_start_time w) (iopub w) = true ->
  fst (send_command command w s)
  = Returned (Py.join_lines (shell_reply (msg_id w) [timeout_marker] (shell w)))
  /\ (shell w = Empty ->
      fst (send_command command w s)
      = Returned (Py.join_lines
                ["Status: error_shell_reply_timeout"; timeout_marker;
                 "Timeout waiting for shell reply from IPython kernel."])).
Proof.
  intros Hsub Hsilent Hdeadline.
  destruct (silent_loop (msg_id w) (iopub_start_time w) (iopub w) initial
              Hsilent Hdeadline eq_refl) as (st & Hloop & Hout).
  cbn in Hout.
  rewrite (submitted_plain_text command w s st Hsub Hloop), Hout.
  split; [reflexivity|]. now intros ->.
Qed.

End Silence.

Lemma silent_kernel_times_out_witness :
  fst (send_command "while True: pass"
         (with_iopub Sample.slow
            [(100.6%Q, Empty); (105%Q, Empty); (110.2%Q, Empty)])
         Sample.up)
  = Returned (Py.join_lines
            ["Status: error_shell_reply_timeout"; timeout_marker;
             "Timeout waiting for shell reply from IPython kernel."]).
Proof.
  apply (silent_kernel_times_out "while True: pass"
           (with_iopub Sample.slow
              [(100.6%Q, Empty); (105%Q, Empty); (110.2%Q, Empty)])
           Sample.up);
    reflexivity.
Defined.

(** ** What the reset operation reports *)

Section Reset.

Lemma occurs_in_any_case_frame (p s a b : string) :
  occurs_in_any_case p s -> occurs_in_any_case p (a ++ s ++ b).
Proof.
  intros (before & x & after & -> & Hx).
  exists (a ++ before), x, (after ++ b). split; [|exact Hx].
  now rewrite !append_assoc.
Qed.

Lemma mentions_error_frame (s a b : string) :
  mentions_error s = true -> mentions_error (a ++ s ++ b) = true.
Proof.
  unfold mentions_error. rewrite !contains_lower_iff.
  apply occurs_in_any_case_frame.
Qed.

Lemma mentions_error_first_line (l : string) (ls : list string) :
  mentions_error l = true -> mentions_error (Py.join_lines (l :: ls)) = true.
Proof.
  intros Hl. destruct (join_lines_cons l ls) as [rest ->].
  apply (mentions_error_frame l "" rest Hl).
Qed.

Lemma prefix_before_char (p u b : string) (c : ascii) :
  Py.has_char c p = false ->
  String.prefix p (u ++ String c b) = String.prefix p u.
Proof.
  revert u; induction p as [|x p IH]; intros u.
  - intros _. now destruct u.
  - cbn [Py.has_char]. rewrite orb_false_iff. intros [Hx Hp].
    destruct u as [|d u]; cbn.
    + destruct (ascii_dec x c) as [->|_]; [|reflexivity].
      rewrite Ascii.eqb_refl in Hx. discriminate.
    + destruct (ascii_dec x d); [now apply IH | reflexivity].
Qed.

Lemma contains_empty (p : string) : p <> "" -> Py.contains p "" = false.
Proof. destruct p; [easy | reflexivity]. Qed.

(** An occurrence of [p] cannot straddle a character that [p] lacks. *)
Lemma contains_around_char (p a b : string) (c : ascii) :
  Py.has_char c p = false -> p <> "" ->
  Py.contains p (a ++ String c b) = Py.contains p a || Py.contains p b.
Proof.
  intros Hc Hp. induction a as [|x a IH].
  - rewrite (contains_empty p Hp).
    pose proof (prefix_before_char p "" b c Hc) as Hfirst.
    cbn [append] in Hfirst. cbn [append Py.contains orb]. rewrite Hfirst.
    destruct p; [easy | reflexivity].
  - cbn [append Py.contains].
    change (String x (a ++ String c b)) with (String x a ++ String c b).
    rewrite (prefix_before_char p (String x a) b c Hc), IH.
    now rewrite orb_assoc.
Qed.

Lemma contains_avoids (p a s : string) :
  avoids p s = true -> p <> "" ->
  Py.contains p (a ++ s) = Py.contains p a.
Proof.
  intros Hs Hp. revert a; induction s as [|c s IH]; intros a.
  - now rewrite append_nil_r.
  - cbn [avoids] in Hs. apply andb_true_iff in Hs. destruct Hs as [Hc Hs].
    apply negb_true_iff in Hc.
    rewrite (contains_around_char p a s c Hc Hp).
    change s with ("" ++ s). rewrite (IH Hs ""), (contains_empty p Hp).
    apply orb_false_r.
Qed.

Lemma contains_join_false (p : string) (lines : list string) :
  Py.has_char "010"%char p = false -> p <> "" ->
  Forall (fun l => Py.contains p l = false) lines ->
  Py.contains p (Py.join_lines lines) = false.
Proof.
  intros Hnl Hp Hall. unfold Py.join_lines.
  induction Hall as [|l lines Hl Hall IH]; [now apply contains_empty|].
  destruct lines as [|l' lines]; [exact Hl|].
  change (String.concat Py.nl (l :: l' :: lines))
    with (l ++ String "010"%char (String.concat Py.nl (l' :: lines))).
  now rewrite (contains_around_char p _ _ _ Hnl Hp), Hl, IH.
Qed.

Lemma lower_join (lines : list string) :
  Py.lower (Py.join_lines lines) = Py.join_lines (map Py.lower lines).
Proof.
  unfold Py.join_lines. induction lines as [|l lines IH]; [reflexivity|].
  destruct lines as [|l' lines]; [reflexivity|].
  change (String.concat Py.nl (l :: l' :: lines))
    with (l ++ Py.nl ++ String.concat Py.nl (l' :: lines)).
  rewrite !lower_app, IH. reflexivity.
Qed.

Lemma mentions_error_join (lines : list string) :
  forallb (fun l => negb (mentions_error l)) lines = true ->
  mentions_error (Py.join_lines lines) = false.
Proof.
  intros Hall. unfold mentions_error. rewrite lower_join.
  apply contains_join_false; [reflexivity | discriminate |].
  rewrite forallb_forall in Hall. apply Forall_forall.
  intros l Hl. apply in_map_iff in Hl. destruct Hl as (l0 & <- & Hl0).
  apply negb_true_iff. now apply Hall.
Qed.

Lemma digits_avoid_error (d : Decimal.uint) :
  avoids "error" (Py.lower (NilEmpty.string_of_uint d)) = true.
Proof. induction d; cbn; auto. Qed.

Lemma decimal_avoids_error (d : Decimal.uint) :
  avoids "error" (Py.lower (NilZero.string_of_uint d)) = true.
Proof.
  destruct d; try reflexivity;
    match goal with
    | |- context [NilZero.string_of_uint ?x] => exact (digits_avoid_error x)
    end.
Qed.

Lemma str_of_int_avoids_error (n : Z) :
  avoids "error" (Py.lower (Py.str_of_int n)) = true.
Proof.
  unfold Py.str_of_int, NilZero.string_of_int.
  destruct (Z.to_int n) as [d|d].
  - apply decimal_avoids_error.
  - exact (decimal_avoids_error d).
Qed.

Lemma execution_count_line_clean (count : option Z) :
  mentions_error
    ("  Execution Count: "
     ++ match count with
        | Some n => Py.str_of_int n
        | None => "N/A"
        end) = false.
Proof.
  destruct count as [n|]; [|reflexivity].
  unfold mentions_error. rewrite lower_app.
  rewrite contains_avoids;
    [reflexivity | apply str_of_int_avoids_error | discriminate].
Qed.

End Reset.

Section ResetReports.

Lemma clear_kernel_cases (w : world) (s : server) :
  fst (clear_kernel w s)
  = match fst (send_command "%reset -f" w s) with
    | Polling => Polling
    | Raised e => Raised e
    | Returned output =>
        if Py.contains "Status: ok" output && negb (mentions_error output)
        then Returned (cleared output)
        else Returned (potential_issues output)
    end.
Proof.
  unfold clear_kernel, mentions_error.
  destruct (send_command "%reset -f" w s) as [[output|e|] s'];
    try reflexivity.
  cbn [fst].
  now destruct (Py.contains "Status: ok" output
                && negb (Py.contains "error" (Py.lower output))).
Qed.

Lemma error_message_mentions_error (message : string) :
  Py.startswith message "Error: " = true -> mentions_error message = true.
Proof.
  unfold Py.startswith. rewrite prefix_iff. intros [rest ->].
  apply (mentions_error_frame "Error" "" (": " ++ rest)). reflexivity.
Qed.

(** A reset that finds the kernel down, the one that restarts it
    included, reports potential issues, followed by the [Error: ...]
    message.  A reset that finds the kernel up and the channels not
    running raises and reports nothing. *)
Theorem reset_without_submission (w : world) (s : server) :
  (kernel_down s = true ->
   exists message,
     fst (send_command "%reset -f" w s) = Returned message
     /\ Py.startswith message "Error: " = true
     /\ fst (clear_kernel w s) = Returned (potential_issues message))
  /\ (kernel_down s = false -> kc_channels_running s = false ->
      fst (clear_kernel w s)
      = Raised "'Context' object has no attribute 'warn'").
Proof.
  split.
  - intros Hdown.
    destruct (send_command_kernel_down "%reset -f" w s Hdown)
      as (message & Hsend & Herr).
    exists message. repeat split; [exact Hsend | exact Herr |].
    rewrite clear_kernel_cases, Hsend.
    rewrite (error_message_mentions_error message Herr).
    now rewrite andb_false_r.
  - intros Hup Hch. rewrite clear_kernel_cases.
    now rewrite (send_command_channels_down "%reset -f" w s Hup Hch).
Qed.

(** Success is reported only for a reset that was submitted, whose
    notification loop ended and whose reply poll got a reply for this
    request with a status that does not mention an error: never after a
    reply timeout, a mismatched reply or a fault. *)
Theorem cleared_only_after_matching_reply
    (w : world) (s : server) (output : string) :
  fst (clear_kernel w s) = Returned (cleared output) ->
  submits w s = true
  /\ (exists st,
         iopub_loop (msg_id w) (iopub_start_time w) (iopub w) initial
         = Break st)
  /\ exists reply x,
       shell w = Got reply
       /\ is_for reply (msg_id w) = true
       /\ status (msg_content reply) = Some x
       /\ mentions_error x = false.
Proof.
  rewrite clear_kernel_cases.
  destruct (fst (send_command "%reset -f" w s)) as [out|e|] eqn:Hsend;
    try discriminate.
  destruct (Py.contains "Status: ok" out && negb (mentions_error out)) eqn:Hc;
    [|unfold cleared, potential_issues; discriminate].
  intros _. apply andb_true_iff in Hc. destruct Hc as [_ Hclean].
  apply negb_true_iff in Hclean.
  destruct (submits w s) eqn:Hsub.
  - split; [reflexivity|].
    rewrite (send_command_submitted "%reset -f" w s Hsub) in Hsend.
    destruct (iopub_loop (msg_id w) (iopub_start_time w) (iopub w) initial)
      as [st|st] eqn:Hloop; [|discriminate].
    split; [now exists st|].
    pose proof (submitted_text "%reset -f" w s st Hsub Hloop) as Htext.
    rewrite (send_command_submitted "%reset -f" w s Hsub), Hloop in Htext.
    rewrite Htext in Hsend. injection Hsend as <-.
    assert (Hline : mentions_error (status_line (msg_id w) (shell w)) = false).
    { destruct (mentions_error (status_line (msg_id w) (shell w))) eqn:Hl;
        [|reflexivity].
      rewrite (mentions_error_first_line _ _ Hl) in Hclean. discriminate. }
    rewrite status_line_cases in Hline.
    destruct (shell w) as [reply| |e]; try discriminate.
    destruct (is_for reply (msg_id w)) eqn:Hfor; [|discriminate].
    destruct (status (msg_content reply)) as [x|] eqn:Hx; [|discriminate].
    exists reply, x.
    split; [reflexivity|]. split; [exact Hfor|]. split; [exact Hx|].
    destruct (mentions_error x) eqn:Hmx; [|reflexivity].
    pose proof (mentions_error_frame x "Status: " "" Hmx) as Hframe.
    rewrite append_nil_r in Hframe.
    discriminate (eq_trans (eq_sym Hframe) Hline).
  - destruct (not_submitted_cases w s Hsub) as [Hdown | [Hup Hch]].
    + destruct (send_command_kernel_down "%reset -f" w s Hdown)
        as (message & Hm & Herr).
      rewrite Hm in Hsend. injection Hsend as <-.
      rewrite (error_message_mentions_error _ Herr) in Hclean. discriminate.
    + rewrite (send_command_channels_down "%reset -f" w s Hup Hch) in Hsend.
      discriminate.
Qed.

(** A reset whose reply for this request has status [ok], and whose
    notification lines mention no error, reports success, whatever the
    execution count. *)
Theorem clean_reset_is_cleared
    (w : world) (s : server) (st : loop_state) (reply : message) :
  submits w s = true ->
  iopub_loop (msg_id w) (iopub_start_time w) (iopub w) initial = Break st ->
  shell w = Got reply ->
  is_for reply (msg_id w) = true ->
  status (msg_content reply) = Some "ok" ->
  forallb (fun l => negb (mentions_error l)) (outputs st) = true ->
  exists output,
    fst (send_command "%reset -f" w s) = Returned output
    /\ fst (clear_kernel w s) = Returned (cleared output).
Proof.
  intros Hsub Hloop Hshell Hfor Hok Hlines.
  pose proof (submitted_plain_text "%reset -f" w s st Hsub Hloop) as Hsend.
  eexists. split; [exact Hsend|].
  rewrite clear_kernel_cases, Hsend.
  assert (Hreply :
            shell_reply (msg_id w) (outputs st) (shell w)
            = "Status: ok"
                :: app (outputs st)
                     ["  Execution Count: "
                      ++ match execution_count (msg_content reply) with
                         | Some n => Py.str_of_int n
                         | None => "N/A"
                         end]).
  { rewrite Hshell. unfold shell_reply. rewrite Hfor, Hok. reflexivity. }
  rewrite Hreply.
  assert (Hstatus : Py.contains "Status: ok"
                      (Py.join_lines
                         ("Status: ok"
                            :: app (outputs st)
                                 ["  Execution Count: "
                                  ++ match execution_count (msg_content reply) with
                                     | Some n => Py.str_of_int n
                                     | None => "N/A"
                                     end])) = true).
  { apply contains_iff, in_join_occurs. now left. }
  rewrite Hstatus, mentions_error_join; [reflexivity|].
  cbn [forallb]. rewrite forallb_app, Hlines. cbn [forallb].
  now rewrite execution_count_line_clean.
Qed.

End ResetReports.

Lemma reset_without_submission_witness :
  fst (clear_kernel (Sample.run Empty) Sample.down)
  = Returned
      (potential_issues
         "Error: IPython kernel was not running. It has been restarted. Please try your command again.")
  /\ fst (clear_kernel (Sample.run Empty)
            (set_kernel Sample.up (Some {| is_alive := true |})
               (Some {| channels_running := false |})))
     = Raised "'Context' object has no attribute 'warn'".
Proof.
  split.
  - destruct (proj1 (reset_without_submission (Sample.run Empty) Sample.down)
                eq_refl) as (message & Hsend & _ & Hreset).
    injection Hsend as <-. exact Hreset.
  - apply (reset_without_submission (Sample.run Empty)
             (set_kernel Sample.up (Some {| is_alive := true |})
                (Some {| channels_running := false |})));
      reflexivity.
Defined.

Lemma cleared_only_after_matching_reply_witness :
  submits (Sample.run (Got (Sample.reply_msg "m1" "ok" 3))) Sample.up = true.
Proof.
  apply (cleared_only_after_matching_reply
           (Sample.run (Got (Sample.reply_msg "m1" "ok" 3))) Sample.up
           (Py.join_lines
              ["Status: ok"; "  Kernel Status: busy"; "  Stdout: hi";
               "  Kernel Status: idle"; "  Execution Count: 3"])).
  reflexivity.
Defined.

Lemma clean_reset_is_cleared_witness :
  exists output,
    fst (send_command "%reset -f"
           (Sample.run (Got (Sample.reply_msg "m1" "ok" 3))) Sample.up)
    = Returned output
    /\ fst (clear_kernel (Sample.run (Got (Sample.reply_msg "m1" "ok" 3)))
              Sample.up)
       = Returned (cleared output).
Proof.
  apply (clean_reset_is_cleared
           (Sample.run (Got (Sample.reply_msg "m1" "ok" 3))) Sample.up
           (report_idle
              (extend initial
                 ["  Kernel Status: busy"; "  Stdout: hi";
                  "  Kernel Status: idle"]))
           (Sample.reply_msg "m1" "ok" 3));
    reflexivity.
Defined.

(** ** An error reply *)

Section ErrorReply.

Variable command : string.

(** When the reply for this request has status [error], the returned
    text starts with the line [Status: error] and contains the error name
    line, the error value line and every traceback line, indented. *)
Theorem error_reply_is_reported
    (w : world) (s : server) (st : loop_state) (reply : message) :
  submits w s = true ->
  iopub_loop (msg_id w) (iopub_start_time w) (iopub w) initial = Break st ->
  shell w = Got reply ->
  is_for reply (msg_id w) = true ->
  status (msg_content reply) = Some "error" ->
  exists message,
    fst (send_command command w s) = Returned message
    /\ first_line message = "Status: error"
    /\ occurs ("  Shell Error Name: " ++ get (ename (msg_content reply)) "N/A")
         message
    /\ occurs ("  Shell Error Value: " ++ get (evalue (msg_content reply)) "N/A")
         message
    /\ forall l,
         In l (get (traceback (msg_content reply)) []) ->
         occurs (indent l) message.
Proof.
  intros Hsub Hloop Hshell Hfor Herr.
  eexists. split; [apply (submitted_plain_text command w s st Hsub Hloop)|].
  assert (Hreply :
            shell_reply (msg_id w) (outputs st) (shell w)
            = "Status: error"
                :: app (outputs st)
                     (("  Shell Error Name: "
                       ++ get (ename (msg_content reply)) "N/A")
                        :: ("  Shell Error Value: "
                            ++ get (evalue (msg_content reply)) "N/A")
                        :: match get (traceback (msg_content reply)) [] with
                           | [] => []
                           | tb => "  Shell Traceback:" :: map indent tb
                           end)).
  { rewrite Hshell. unfold shell_reply. rewrite Hfor, Herr. cbn.
    destruct (get (traceback (msg_content reply)) []); cbn;
      now rewrite <- ?app_assoc. }
  rewrite Hreply. split; [now apply first_line_join|].
  split; [|split].
  - apply in_join_occurs. right. apply in_or_app. right. now left.
  - apply in_join_occurs. right. apply in_or_app. right. right. now left.
  - intros l Hl. apply in_join_occurs. right. apply in_or_app. right.
    right. right.
    destruct (get (traceback (msg_content reply)) []) as [|l0 tb]; [easy|].
    right. now apply in_map.
Qed.

End ErrorReply.

Lemma error_reply_is_reported_witness :
  exists message,
    fst (send_command "print(x)"
           (Sample.run
              (Got {| parent_msg_id := Some "m1"; msg_type := "execute_reply";
                      msg_content :=
                        {| execution_state := None; name := None;
                           text := None; data := None;
                           ename := Some "NameError";
                           evalue := Some "name 'x' is not defined";
                           traceback := Some ["Traceback"; "NameError"];
                           status := Some "error";
                           execution_count := Some 4%Z |} |}))
           Sample.up)
    = Returned message
    /\ first_line message = "Status: error"
    /\ occurs "  Shell Error Name: NameError" message.
Proof.
  destruct (error_reply_is_reported "print(x)"
              (Sample.run
                 (Got {| parent_msg_id := Some "m1";
                         msg_type := "execute_reply";
                         msg_content :=
                           {| execution_state := None; name := None;
                              text := None; data := None;
                              ename := Some "NameError";
                              evalue := Some "name 'x' is not defined";
                              traceback := Some ["Traceback"; "NameError"];
                              status := Some "error";
                              execution_count := Some 4%Z |} |}))
              Sample.up
              (report_idle
                 (extend initial
                    ["  Kernel Status: busy"; "  Stdout: hi";
                     "  Kernel Status: idle"]))
              _ eq_refl eq_refl eq_refl eq_refl eq_refl)
    as (message & Htext & Hfirst & Hname & _).
  exists message. repeat split; assumption.
Defined.

(** ** Any number of overlapping calls *)

Module TasksBounds.

Import Tasks.
Local Open Scope list_scope.

Lemma steps_trans (a b c : calls) : steps a b -> steps b c -> steps a c.
Proof.
  intros Hab Hbc. induction Hbc as [b | b c c' _ IH Hstep]; [exact Hab|].
  apply steps_step with (c' := c); [now apply IH | exact Hstep].
Qed.

Lemma call_reaches_loop (before after : calls) :
  steps (before ++ Entry :: after) (before ++ PollingIOPub :: after).
Proof.
  apply steps_step with (c' := before ++ Executing :: after).
  apply steps_step with (c' := before ++ Entry :: after).
  - apply steps_refl.
  - apply step_resume, resume_entry.
  - apply step_resume, resume_submitted.
Qed.

Lemma calls_reach_loop (before : calls) (n : nat) :
  steps (before ++ repeat Entry n) (before ++ repeat PollingIOPub n).
Proof.
  revert before; induction n as [|n IH]; intros before; cbn [repeat].
  - apply steps_refl.
  - apply steps_trans with (b := before ++ PollingIOPub :: repeat Entry n).
    + apply call_reaches_loop.
    + specialize (IH (before ++ [PollingIOPub])).
      now rewrite <- !app_assoc in IH.
Qed.

(** The event loop puts no bound on the submissions in flight: however
    many calls overlap, all of them can be in their notification loops
    together. *)
Theorem all_calls_in_flight (n : nat) :
  steps (repeat Entry n) (repeat PollingIOPub n)
  /\ submissions_in_flight (repeat PollingIOPub n) = n.
Proof.
  split; [apply (calls_reach_loop [] n)|].
  unfold submissions_in_flight.
  induction n as [|n IH]; cbn; [reflexivity | now rewrite IH].
Qed.

End TasksBounds.
